(** * go-toolkit: the EPUB parser and the image (Divina) parser

    A shallow embedding of the EPUB parser (package [epub]: [Parse],
    [parseEncryptionData], [parseNavigationData], [parseDisplayOptions]) and
    of [pkg/parser/parser_image.go] ([ImageParser.Parse] and
    [ImageParser.accepts]), and the properties of the two parsers.

    Conventions of the embedding.
    - A Go [string] is a [string] of bytes; [<] on strings is [String.ltb]
      (byte-wise lexicographic order) and [==] is [String.eqb].
    - A Go [float64] is a [spec_float] (IEEE 754 binary64), [<] is [SFltb].
    - A Go [map] is a [gmap]; the [nil] map is kept apart from an empty map
      made with [make] (type [gomap]).
    - A Go multiple return [(v, err)] is a pair whose second component is an
      [option error] ([None] is [nil]); a returned [*T] is an [option T].
    - Functions, constants and methods of packages that the two files import
      are fields of the classes [mediatype.Ops], [xmlquery.Query], [ImageEnv]
      and [epub.EpubEnv]: every theorem holds for all implementations of
      them, and module [Sample] gives one.
    - The calls the EPUB parser makes to the fetcher and to the document
      parsers are recorded, in order, in a trace (monad [Traced]). *)

From Stdlib Require Import ZArith List Ascii String Sorting.Sorted Permutation.
From Stdlib Require Import Floats.SpecFloat.
From stdpp Require Import base gmap strings list sorting.

Set Warnings "-register-all".

Local Open Scope string_scope.
Local Open Scope list_scope.

(* ===================================================================== *)
(** ** Values shared by the two parsers                                   *)
(* ===================================================================== *)

(** Package [mediatype]. A media type value (possibly the nil pointer) is
  kept by its string; the predicates on it are in [Ops]. *)
Module mediatype.
Definition MediaType := string.

Class Ops := {
  EPUB : MediaType;
  CBZ : MediaType;
  CBR : MediaType;
  (** [mt.Equal(&other)] *)
  Equal : MediaType -> MediaType -> bool;
  (** [mt.IsBitmap()] *)
  IsBitmap : MediaType -> bool;
  (** [mediatype.NCX.Contains(mt)] *)
  NCX_Contains : MediaType -> bool
}.
End mediatype.

(** Package [xmlquery]: a parsed XML document. *)
Module xmlquery.
Inductive Node :=
| Element (name : string) (attrs : list (string * string)) (children : list Node)
| Text (data : string).

(** The queries of the library that the parsers use. *)
Class Query := {
  (** [n.SelectElement(expr)]: the first match, or nil *)
  SelectElement : Node -> string -> option Node;
  (** [n.SelectElements(expr)] *)
  SelectElements : Node -> string -> list Node;
  (** [n.SelectAttr(name)]: the empty string when the attribute is absent *)
  SelectAttr : Node -> string -> string;
  (** [n.InnerText()] *)
  InnerText : Node -> string
}.
End xmlquery.

(** Package [manifest]. *)
Module manifest.
(** [manifest.Link]; [Href] is the [HREF] by its [String()]. *)
Record Link := {
  Href : string;
  MediaType : mediatype.MediaType;
  Title : string;
  Rels : list string;
  Properties : list (string * string)
}.

Definition LinkList := list Link.

(** [link.Rels = rels] *)
Definition set_Rels (rels : list string) (link : Link) : Link :=
  {| Href := Href link; MediaType := MediaType link; Title := Title link;
     Rels := rels; Properties := Properties link |}.

(** [manifest.NewHREF(u)] and [manifest.MustNewHREFFromString(s, false)]:
    a link reference that is not templated, kept by its string. *)
Definition NewHREF (u : string) : string := u.
Definition MustNewHREFFromString (s : string) (templated : bool) : string := s.

(** [manifest.Link{Href: href}] *)
Definition LinkOfHref (href : string) : Link :=
  {| Href := href; MediaType := ""; Title := ""; Rels := []; Properties := [] |}.

Record Metadata := {
  Identifier : string;
  LocalizedTitle : string;
  ConformsTo : list string
}.

(** [manifest.Manifest]; [MetadataOf] is its field [Metadata]. A field a
  composite literal leaves out has its zero value. *)
Record Manifest := {
  Context : list string;
  MetadataOf : Metadata;
  Links : LinkList;
  ReadingOrder : LinkList;
  Resources : LinkList;
  TableOfContents : LinkList
}.
End manifest.

(** Package [fetcher] and Go errors. *)
Module fetcher.
(** [*fetcher.ResourceError] *)
Record ResourceError := { Code : nat; Message : string }.

(** A Go [error] value: [errors.New], [errors.Wrap] of pkg/errors, a
    resource error of the fetcher, or an error of another collaborator. *)
Inductive error :=
| New (text : string)
| Wrap (cause : error) (message : string)
| OfResource (e : ResourceError)
| Foreign (text : string).

(** [fetcher.Resource], by the one method the parsers call. *)
Record Resource := {
  ReadAsXML : list (string * string) -> xmlquery.Node + ResourceError
}.

(** [fetcher.Fetcher]: any base implementation, given by its [Links()] and
    [Get(link)], or [fetcher.NewTransformingFetcher(inner, transform)]. *)
Inductive Fetcher :=
| Base (links : manifest.LinkList * option error)
       (get : manifest.Link -> Resource)
| NewTransformingFetcher (inner : Fetcher) (transform : Resource -> Resource).

Fixpoint Links (f : Fetcher) : manifest.LinkList * option error :=
  match f with
  | Base links _ => links
  | NewTransformingFetcher inner _ => Links inner
  end.

Fixpoint Get (f : Fetcher) (link : manifest.Link) : Resource :=
  match f with
  | Base _ get => get link
  | NewTransformingFetcher inner transform => transform (Get inner link)
  end.
End fetcher.

(** Package [asset]. *)
Module asset.
(** [asset.PublicationAsset], by its [Name()] and [MediaType()]. *)
Record PublicationAsset := {
  Name : string;
  MediaType : mediatype.MediaType
}.
End asset.

(** Package [pub]. *)
Module pub.
(** The service factories the two parsers register. *)
Inductive ServiceFactory :=
| PerResourcePositionsServiceFactory (fallbackMediaType : string)
| PositionsServiceFactory (reflowableStrategy : string)
| DefaultContentServiceFactory (iterators : list string)
| MediaOverlayFactory.

Definition PositionsService_Name := "PositionsService".
Definition ContentService_Name := "ContentService".
Definition GuidedNavigationService_Name := "GuidedNavigationService".

(** [pub.NewServicesBuilder(map[string]pub.ServiceFactory{...})] *)
Definition NewServicesBuilder (fs : list (string * ServiceFactory))
  : gmap string ServiceFactory := list_to_map fs.

(** [*pub.Builder], made by [pub.NewBuilder(manifest, fetcher, services)]. *)
Record Builder := NewBuilder {
  BuilderManifest : manifest.Manifest;
  BuilderFetcher : fetcher.Fetcher;
  BuilderServices : gmap string ServiceFactory
}.
End pub.

(** Go standard library: [path/filepath] (Unix separator). *)
Module filepath.
(** The loop of [filepath.Ext]: [i] goes down from the last byte while
    [path[i]] is not a separator; at a dot, [path[i:]] is returned.
    [before] holds [path[:i+1]] reversed, [after] holds [path[i+1:]]. *)
Fixpoint ext_scan (before after : list ascii) : list ascii :=
  match before with
  | [] => []
  | c :: more =>
      if Ascii.eqb c "/" then []
      else if Ascii.eqb c "." then c :: after
      else ext_scan more (c :: after)
  end.

Definition Ext (path : string) : string :=
  string_of_list_ascii (ext_scan (rev (list_ascii_of_string path)) []).
End filepath.

(** The slice expression [s[1:]] on a string of at least one byte. *)
Definition slice_from1 (s : string) : string :=
  String.substring 1 (String.length s - 1) s.

(** A Go map value: [nil], or a map made by [make] or by a literal. *)
Inductive gomap (V : Type) :=
| nilmap
| made (m : gmap string V).
Arguments nilmap {V}.
Arguments made {V} m.

(** [len(m)] *)
Definition gomap_len {V} (m : gomap V) : nat :=
  match m with
  | nilmap => 0
  | made m => size m
  end.

(** [m[k]], with the "comma ok" result as an option *)
Definition gomap_get {V} (m : gomap V) (k : string) : option V :=
  match m with
  | nilmap => None
  | made m => m !! k
  end.

(* ===================================================================== *)
(** ** pkg/parser/parser_image.go                                         *)
(* ===================================================================== *)

(** What [parser_image.go] takes from other packages. *)
Class ImageEnv := {
  (** [link.URL(nil, nil).Path()] *)
  LinkPath : manifest.Link -> string;
  (** [extensions.IsHiddenOrThumbs(path)] *)
  IsHiddenOrThumbs : string -> bool;
  (** [strings.ToLower(s)] *)
  ToLower : string -> string;
  (** [sort.Slice(x, less)], [less] given on the elements *)
  sortSlice : (manifest.Link -> manifest.Link -> bool) ->
              manifest.LinkList -> manifest.LinkList;
  (** [guessPublicationTitleFromFileStructure(fetcher)] *)
  guessPublicationTitleFromFileStructure : fetcher.Fetcher -> string;
  (** [manifest.NewLocalizedStringFromString(title)] *)
  NewLocalizedStringFromString : string -> string;
  WebpubManifestContext : string;
  ProfileDivina : string
}.

Module ImageParser.
Section with_env.
Context {mt : mediatype.Ops} {env : ImageEnv}.

(** [var allowed_extensions_image = map[string]struct{}{...}], a set. *)
Definition allowed_extensions_image : gset string :=
  {[ "acbf"; "xml"; "txt"; "json" ]}.

(** The extension that [accepts] looks up: [filepath.Ext] of the lowered
    path, without its dot when it is longer than the dot. *)
Definition fext_of (path : string) : string :=
  let fext := filepath.Ext (ToLower path) in
  if (1 <? String.length fext)%nat then slice_from1 fext else fext.

(** The [for _, link := range links] loop of [accepts]. *)
Fixpoint accepts_loop (links : manifest.LinkList) : bool * option fetcher.error :=
  match links with
  | [] => (true, None)
  | link :: rest =>
      let path := LinkPath link in
      if IsHiddenOrThumbs path then accepts_loop rest
      else if mediatype.IsBitmap (manifest.MediaType link) then accepts_loop rest
      else
        let fext := fext_of path in
        let contains := bool_decide (fext ∈ allowed_extensions_image) in
        if negb contains then (false, None) else accepts_loop rest
  end.

Definition accepts (asset : asset.PublicationAsset) (f : fetcher.Fetcher)
  : bool * option fetcher.error :=
  if mediatype.Equal (asset.MediaType asset) mediatype.CBZ
     || mediatype.Equal (asset.MediaType asset) mediatype.CBR
  then (true, None)
  else
    match fetcher.Links f with
    | (_, Some err) => (false, Some err)
    | (links, None) => accepts_loop links
    end.

(** The first loop of [Parse]: [readingOrder] grows by [append]. *)
Definition collect (links : manifest.LinkList) : manifest.LinkList :=
  fold_left
    (fun readingOrder link =>
       let path := LinkPath link in
       if IsHiddenOrThumbs path || negb (mediatype.IsBitmap (manifest.MediaType link))
       then readingOrder
       else readingOrder ++ [link])
    links [].

(** The [less] of the [sort.Slice] call, on the elements. *)
Definition hrefLess (a b : manifest.Link) : bool :=
  String.ltb (manifest.Href a) (manifest.Href b).

(** [readingOrder[0].Rels = []string{"cover"}]. The index is in range where
    [Parse] comes to it: the slice is not empty and [sort.Slice] keeps its
    length. *)
Definition tagCover (readingOrder : manifest.LinkList) : manifest.LinkList :=
  alter (manifest.set_Rels ["cover"]) 0%nat readingOrder.

Definition Parse (asset : asset.PublicationAsset) (f : fetcher.Fetcher)
  : option pub.Builder * option fetcher.error :=
  let '(ok, err) := accepts asset f in
  if bool_decide (err <> None) || negb ok then (None, err)
  else
    match fetcher.Links f with
    | (_, Some err) => (None, Some err)
    | (links, None) =>
        let readingOrder := collect links in
        if (length readingOrder =? 0)%nat
        then (None, Some (fetcher.New "no bitmap found in the publication"))
        else
          let readingOrder := sortSlice hrefLess readingOrder in
          let title := guessPublicationTitleFromFileStructure f in
          let title := if String.eqb title "" then asset.Name asset else title in
          let readingOrder := tagCover readingOrder in
          let manifest :=
            {| manifest.Context := [WebpubManifestContext];
               manifest.MetadataOf :=
                 {| manifest.Identifier := "";
                    manifest.LocalizedTitle := NewLocalizedStringFromString title;
                    manifest.ConformsTo := [ProfileDivina] |};
               manifest.Links := [];
               manifest.ReadingOrder := readingOrder;
               manifest.Resources := [];
               manifest.TableOfContents := [] |} in
          let builder :=
            pub.NewServicesBuilder
              [(pub.PositionsService_Name,
                pub.PerResourcePositionsServiceFactory "image/*")] in
          (Some (pub.NewBuilder manifest f builder), None)
    end.
End with_env.
End ImageParser.

(* ===================================================================== *)
(** ** pkg/parser/epub/parser.go                                          *)
(* ===================================================================== *)

(** The calls to collaborators that the EPUB parser makes. *)
Inductive Event :=
| ReadXML (href : string) (prefixes : list (string * string))
    (** [fetcher.Get(manifest.Link{Href: href}).ReadAsXML(prefixes)] *)
| CallGetRootFilePath
| CallParsePackageDocument (filePath : string)
| CallParseNCX (filePath : string)
| CallParseNavDoc (filePath : string)
| CallParseEncryption
| CallCreate.

(** A computation with the trace of its calls, in order. *)
Record Traced (A : Type) := traced { value : A; trace : list Event }.
Arguments traced {A} value trace.
Arguments value {A} t.
Arguments trace {A} t.

#[global] Instance Traced_ret : MRet Traced := fun A a => traced a [].
#[global] Instance Traced_bind : MBind Traced := fun A B k m =>
  let r := k (value m) in traced (value r) (trace m ++ trace r).

(** Record one call. *)
Definition tell (e : Event) : Traced unit := traced tt [e].

(** IEEE 754 binary64. *)
Definition float64 := spec_float.

(** The constant [3.0]: [3 * 2^51 * 2^-51]. *)
Definition float64_3 : float64 := S754_finite false 6755399441055744 (-51).

(** The constant [2.0]: [2^52 * 2^-51]. *)
Definition float64_2 : float64 := S754_finite false 4503599627370496 (-51).

Module epub.

(** [epub.Item], an entry of the manifest of the package document. *)
Record Item := {
  Href : string;
  ID : string;
  MediaType : mediatype.MediaType;
  Properties : list string
}.

Record Spine := { TOC : string }.

(** [epub.PackageDocument]; [Path] and the [Href] of an item are URLs, kept
    by their strings. *)
Record PackageDocument := {
  Path : string;
  EPUBVersion : float64;
  Manifest : list Item;
  SpineOf : Spine
}.

(** [manifest.Encryption] *)
Record Encryption := {
  Scheme : string;
  Profile : string;
  Algorithm : string;
  Compression : string;
  OriginalLength : Z
}.

(** [epub.PublicationFactory] *)
Record PublicationFactory := {
  FallbackTitle : string;
  PackageDocumentOf : PackageDocument;
  NavigationData : gomap manifest.LinkList;
  EncryptionData : gomap Encryption;
  DisplayOptions : gomap string
}.

(** [epub.Deobfuscator], made by [NewDeobfuscator(identifier)]. *)
Record Deobfuscator := NewDeobfuscator { identifier : string }.

(** What [parser.go] takes from the rest of its package and from other
    packages. *)
Class EpubEnv := {
  NamespaceOPF : string;
  NamespaceDC : string;
  VocabularyDCTerms : string;
  NamespaceENC : string;
  NamespaceSIG : string;
  NamespaceCOMP : string;
  NamespaceNCX : string;
  NamespaceXHTML : string;
  NamespaceOPS : string;
  VocabularyItem : string;
  RecommendedReflowableStrategy : string;
  (** [GetRootFilePath(f)] *)
  GetRootFilePath : fetcher.Fetcher -> string * option fetcher.error;
  (** [ParsePackageDocument(document, filePath)] *)
  ParsePackageDocument : xmlquery.Node -> string -> PackageDocument + fetcher.error;
  (** [ParseNCX(document, filePath)] *)
  ParseNCX : xmlquery.Node -> string -> gomap manifest.LinkList;
  (** [ParseNavDoc(document, filePath)] *)
  ParseNavDoc : xmlquery.Node -> string -> gomap manifest.LinkList;
  (** [ParseEncryption(document)] *)
  ParseEncryption : xmlquery.Node -> gomap Encryption;
  (** [base.Resolve(href)] of package [url] *)
  Resolve : string -> string -> string;
  (** [PublicationFactory{...}.Create()] *)
  Create : PublicationFactory -> manifest.Manifest;
  (** [deobfuscator.Transform] *)
  Transform : Deobfuscator -> fetcher.Resource -> fetcher.Resource
}.

Record Parser := { reflowablePositionsStrategy : string }.

Section with_env.
Context {mt : mediatype.Ops} {xq : xmlquery.Query} {env : EpubEnv}.

Definition NewParser (strategy : option string) : Parser :=
  let strategy :=
    match strategy with
    | None => RecommendedReflowableStrategy
    | Some s => s
    end in
  {| reflowablePositionsStrategy := strategy |}.

(** [f.Get(manifest.Link{Href: href}).ReadAsXML(prefixes)] *)
Definition readAsXML (f : fetcher.Fetcher) (href : string)
    (prefixes : list (string * string))
  : Traced (xmlquery.Node + fetcher.ResourceError) :=
  _ ← tell (ReadXML href prefixes);
  mret (fetcher.ReadAsXML (fetcher.Get f (manifest.LinkOfHref href)) prefixes).

(** [for _, v := range items { if cond(v) { item = &v; break } }] *)
Fixpoint firstItem (cond : Item -> bool) (items : list Item) : option Item :=
  match items with
  | [] => None
  | v :: rest => if cond v then Some v else firstItem cond rest
  end.

(** The inner loop over [v.Properties] of the search for the navigation
    document: is one of them [VocabularyItem+"nav"]? *)
Fixpoint hasNav (properties : list string) : bool :=
  match properties with
  | [] => false
  | st :: rest => if String.eqb st (VocabularyItem ++ "nav") then true else hasNav rest
  end.

(** The value of [ncxItem] after the search (lines 95 to 110). *)
Definition ncxItem (packageDocument : PackageDocument) : option Item :=
  if negb (String.eqb (TOC (SpineOf packageDocument)) "")
  then firstItem (fun v => String.eqb (ID v) (TOC (SpineOf packageDocument)))
         (Manifest packageDocument)
  else firstItem (fun v => mediatype.NCX_Contains (MediaType v))
         (Manifest packageDocument).

(** The value of [navItem] after the search (lines 123 to 134). *)
Definition navItem (packageDocument : PackageDocument) : option Item :=
  firstItem (fun v => hasNav (Properties v)) (Manifest packageDocument).

Definition parseNavigationData (packageDocument : PackageDocument)
    (f : fetcher.Fetcher) : Traced (gomap manifest.LinkList) :=
  let ret : gomap manifest.LinkList := made ∅ in
  if SFltb (EPUBVersion packageDocument) float64_3 then
    match ncxItem packageDocument with
    | None => mret ret
    | Some ncxItem =>
        let ncxPath := Resolve (Path packageDocument) (Href ncxItem) in
        r ← readAsXML f (manifest.NewHREF ncxPath) [(NamespaceNCX, "ncx")];
        match r with
        | inr nerr => mret ret
        | inl n => _ ← tell (CallParseNCX ncxPath); mret (ParseNCX n ncxPath)
        end
    end
  else
    match navItem packageDocument with
    | None => mret ret
    | Some navItem =>
        let navPath := Resolve (Path packageDocument) (Href navItem) in
        r ← readAsXML f (manifest.NewHREF navPath)
              [(NamespaceXHTML, "html"); (NamespaceOPS, "epub")];
        match r with
        | inr errx => mret ret
        | inl n => _ ← tell (CallParseNavDoc navPath); mret (ParseNavDoc n navPath)
        end
    end.

Definition parseEncryptionData (f : fetcher.Fetcher) : Traced (gomap Encryption) :=
  let ret : gomap Encryption := nilmap in
  r ← readAsXML f (manifest.MustNewHREFFromString "META-INF/encryption.xml" false)
        [(NamespaceENC, "enc"); (NamespaceSIG, "ds"); (NamespaceCOMP, "comp")];
  match r with
  | inr err => mret ret
  | inl n => _ ← tell CallParseEncryption; mret (ParseEncryption n)
  end.

(** The body of the loop over the [option] elements: [ret[optName] = optValue]
    when neither is empty. *)
Definition addOption (ret : gmap string string) (option : xmlquery.Node)
  : gmap string string :=
  let optName := xmlquery.SelectAttr option "name" in
  let optValue := xmlquery.InnerText option in
  if negb (String.eqb optName "") && negb (String.eqb optValue "")
  then <[optName := optValue]> ret
  else ret.

(** Lines 161 to 169: the options of the first [platform] element. *)
Definition platformOptions (displayOptionsXml : xmlquery.Node)
    (ret : gmap string string) : gmap string string :=
  match xmlquery.SelectElement displayOptionsXml "//platform" with
  | Some platform => fold_left addOption (xmlquery.SelectElements platform "option") ret
  | None => ret
  end.

Definition parseDisplayOptions (f : fetcher.Fetcher) : Traced (gomap string) :=
  let ret : gmap string string := ∅ in
  r ← readAsXML f
        (manifest.MustNewHREFFromString
           "META-INF/com.apple.ibooks.display-options.xml" false) [];
  found ← match r with
          | inl displayOptionsXml => mret (Some displayOptionsXml)
          | inr err =>
              r ← readAsXML f
                    (manifest.MustNewHREFFromString
                       "META-INF/com.kobobooks.display-options.xml" false) [];
              match r with
              | inl displayOptionsXml => mret (Some displayOptionsXml)
              | inr err => mret None
              end
          end;
  match found with
  | None => mret (made ret)
  | Some displayOptionsXml => mret (made (platformOptions displayOptionsXml ret))
  end.

Definition Parse (p : Parser) (asset : asset.PublicationAsset) (f : fetcher.Fetcher)
  : Traced (option pub.Builder * option fetcher.error) :=
  let fallbackTitle := asset.Name asset in
  if negb (mediatype.Equal (asset.MediaType asset) mediatype.EPUB)
  then mret (None, None)
  else
    _ ← tell CallGetRootFilePath;
    let '(opfPath, err) := GetRootFilePath f in
    match err with
    | Some err => mret (None, Some err)
    | None =>
    r ← readAsXML f (manifest.NewHREF opfPath)
          [(NamespaceOPF, "opf"); (NamespaceDC, "dc");
           (VocabularyDCTerms, "dcterms");
           ("http://www.idpf.org/2013/rendition", "rendition")];
    match r with
    | inr errx => mret (None, Some (fetcher.OfResource errx))
    | inl opfXmlDocument =>
    _ ← tell (CallParsePackageDocument opfPath);
    match ParsePackageDocument opfXmlDocument opfPath with
    | inr err => mret (None, Some (fetcher.Wrap err "invalid OPF file"))
    | inl packageDocument =>
    navigationData ← parseNavigationData packageDocument f;
    encryptionData ← parseEncryptionData f;
    displayOptions ← parseDisplayOptions f;
    _ ← tell CallCreate;
    let manifest :=
      Create {| FallbackTitle := fallbackTitle;
                PackageDocumentOf := packageDocument;
                NavigationData := navigationData;
                EncryptionData := encryptionData;
                DisplayOptions := displayOptions |} in
    let ffetcher :=
      if negb (String.eqb (manifest.Identifier (manifest.MetadataOf manifest)) "")
      then fetcher.NewTransformingFetcher f
             (Transform (NewDeobfuscator
                (manifest.Identifier (manifest.MetadataOf manifest))))
      else f in
    let builder :=
      pub.NewServicesBuilder
        [(pub.PositionsService_Name,
          pub.PositionsServiceFactory (reflowablePositionsStrategy p));
         (pub.ContentService_Name, pub.DefaultContentServiceFactory ["HTMLFactory"]);
         (pub.GuidedNavigationService_Name, pub.MediaOverlayFactory)] in
    mret (Some (pub.NewBuilder manifest ffetcher builder), None)
    end end end.
End with_env.
End epub.

(* ===================================================================== *)
(** ** The selection of the legacy navigation resource, as specified      *)
(* ===================================================================== *)

(** The specification's rule for the legacy navigation resource: the
    manifest entry whose id is the table-of-contents id of the spine, and
    otherwise the first entry whose media type is that of an NCX index. *)
Definition spec_legacy_resource `{!mediatype.Ops}
    (packageDocument : epub.PackageDocument) : option epub.Item :=
  match epub.firstItem
          (fun v => String.eqb (epub.ID v) (epub.TOC (epub.SpineOf packageDocument)))
          (epub.Manifest packageDocument) with
  | Some item => Some item
  | None =>
      epub.firstItem (fun v => mediatype.NCX_Contains (epub.MediaType v))
        (epub.Manifest packageDocument)
  end.

(* ===================================================================== *)
(** ** One implementation of the collaborators, and sample inputs         *)
(* ===================================================================== *)

Module Sample.

#[local] Instance mediaTypes : mediatype.Ops := {|
  mediatype.EPUB := "application/epub+zip";
  mediatype.CBZ := "application/vnd.comicbook+zip";
  mediatype.CBR := "application/vnd.comicbook-rar";
  mediatype.Equal := String.eqb;
  mediatype.IsBitmap := fun mt =>
    bool_decide (mt ∈ ["image/bmp"; "image/gif"; "image/jpeg"; "image/png";
                       "image/tiff"; "image/webp"]);
  mediatype.NCX_Contains := String.eqb "application/x-dtbncx+xml"
|}.

(** Elements below [n], in document order. *)
Fixpoint descendants (n : xmlquery.Node) : list xmlquery.Node :=
  match n with
  | xmlquery.Element _ _ children =>
      flat_map (fun c => c :: descendants c) children
  | xmlquery.Text _ => []
  end.

Definition children (n : xmlquery.Node) : list xmlquery.Node :=
  match n with
  | xmlquery.Element _ _ children => children
  | xmlquery.Text _ => []
  end.

Definition named (name : string) (n : xmlquery.Node) : bool :=
  match n with
  | xmlquery.Element name' _ _ => String.eqb name' name
  | xmlquery.Text _ => false
  end.

(** The two shapes of path the parsers use: [//name] and [name]. *)
Definition select (n : xmlquery.Node) (expr : string) : list xmlquery.Node :=
  if String.prefix "//" expr
  then List.filter (named (String.substring 2 (String.length expr - 2) expr))
         (descendants n)
  else List.filter (named expr) (children n).

Fixpoint lookupAttr (name : string) (attrs : list (string * string)) : string :=
  match attrs with
  | [] => ""
  | (k, v) :: rest => if String.eqb k name then v else lookupAttr name rest
  end.

Fixpoint innerText (n : xmlquery.Node) : string :=
  match n with
  | xmlquery.Text data => data
  | xmlquery.Element _ _ children => String.concat "" (List.map innerText children)
  end.

#[local] Instance xmlQuery : xmlquery.Query := {|
  xmlquery.SelectElement := fun n expr => head (select n expr);
  xmlquery.SelectElements := select;
  xmlquery.SelectAttr := fun n name =>
    match n with
    | xmlquery.Element _ attrs _ => lookupAttr name attrs
    | xmlquery.Text _ => ""
    end;
  xmlquery.InnerText := innerText
|}.

(** [strings.ToLower] on ASCII bytes. *)
Definition lowerByte (c : ascii) : ascii :=
  let n := nat_of_ascii c in
  if ((65 <=? n) && (n <=? 90))%nat then ascii_of_nat (n + 32) else c.

Fixpoint toLower (s : string) : string :=
  match s with
  | EmptyString => EmptyString
  | String c rest => String (lowerByte c) (toLower rest)
  end.

(** The last element of a path. *)
Fixpoint baseName (path : string) : string :=
  match path with
  | EmptyString => EmptyString
  | String c rest =>
      if existsb (Ascii.eqb "/") (list_ascii_of_string rest) then baseName rest
      else if Ascii.eqb c "/" then rest else path
  end.

Definition isHiddenOrThumbs (path : string) : bool :=
  String.prefix "." (baseName path) || String.eqb (baseName path) "Thumbs.db".

(** The inner loop of Go's [insertionSortLessFunc]: the element [x] at index
    [j] is swapped with its left neighbour while [less(j, j-1)];
    [left] is [data[a:j]] reversed and the result is reversed too. *)
Fixpoint sink {A} (less : A -> A -> bool) (x : A) (left : list A) : list A :=
  match left with
  | [] => [x]
  | y :: more => if less x y then y :: sink less x more else x :: y :: more
  end.

(** [insertionSortLessFunc], which is what [sort.Slice] runs on a slice of
    at most 12 elements. *)
Definition insertionSort {A} (less : A -> A -> bool) (data : list A) : list A :=
  reverse (fold_left (fun left x => sink less x left) data []).

#[local] Instance imageEnv : ImageEnv := {|
  LinkPath := manifest.Href;
  IsHiddenOrThumbs := isHiddenOrThumbs;
  ToLower := toLower;
  sortSlice := insertionSort;
  guessPublicationTitleFromFileStructure := fun _ => "";
  NewLocalizedStringFromString := fun s => s;
  WebpubManifestContext := "https://readium.org/webpub-manifest/context.jsonld";
  ProfileDivina := "https://readium.org/webpub-manifest/profiles/divina"
|}.

(** A fetcher over the links of an archive and its XML documents by href. *)
Fixpoint document (href : string) (docs : list (string * xmlquery.Node))
  : xmlquery.Node + fetcher.ResourceError :=
  match docs with
  | [] => inr {| fetcher.Code := 404; fetcher.Message := "not found" |}
  | (h, d) :: rest => if String.eqb h href then inl d else document href rest
  end.

Definition archive (links : manifest.LinkList) (docs : list (string * xmlquery.Node))
  : fetcher.Fetcher :=
  fetcher.Base (links, None)
    (fun link => {| fetcher.ReadAsXML := fun _ => document (manifest.Href link) docs |}).

Definition file (href mediaType : string) : manifest.Link :=
  {| manifest.Href := href; manifest.MediaType := mediaType; manifest.Title := "";
     manifest.Rels := []; manifest.Properties := [] |}.

(** An EPUB environment whose package-document parser yields
    [packageDocument] on a [package] root element and whose publication
    factory gives the manifest the identifier [id]. *)
Definition epubEnv (packageDocument : epub.PackageDocument) (id : string)
  : epub.EpubEnv := {|
  epub.NamespaceOPF := "http://www.idpf.org/2007/opf";
  epub.NamespaceDC := "http://purl.org/dc/elements/1.1/";
  epub.VocabularyDCTerms := "http://purl.org/dc/terms/";
  epub.NamespaceENC := "http://www.w3.org/2001/04/xmlenc#";
  epub.NamespaceSIG := "http://www.w3.org/2000/09/xmldsig#";
  epub.NamespaceCOMP := "http://www.idpf.org/2016/encryption#compression";
  epub.NamespaceNCX := "http://www.daisy.org/z3986/2005/ncx/";
  epub.NamespaceXHTML := "http://www.w3.org/1999/xhtml";
  epub.NamespaceOPS := "http://www.idpf.org/2007/ops";
  epub.VocabularyItem := "http://idpf.org/epub/vocab/package/item/#";
  epub.RecommendedReflowableStrategy := "recommended";
  epub.GetRootFilePath := fun _ => ("OEBPS/content.opf", None);
  epub.ParsePackageDocument := fun n _ =>
    if named "package" n then inl packageDocument
    else inr (fetcher.Foreign "no package element");
  epub.ParseNCX := fun _ filePath => made {[ "toc" := [manifest.LinkOfHref filePath] ]};
  epub.ParseNavDoc := fun _ filePath => made {[ "toc" := [manifest.LinkOfHref filePath] ]};
  epub.ParseEncryption := fun _ => made ∅;
  epub.Resolve := fun _ href => href;
  epub.Create := fun factory =>
    {| manifest.Context := [];
       manifest.MetadataOf :=
         {| manifest.Identifier := id;
            manifest.LocalizedTitle := epub.FallbackTitle factory;
            manifest.ConformsTo := [] |};
       manifest.Links := [];
       manifest.ReadingOrder := [];
       manifest.Resources := [];
       manifest.TableOfContents := [] |};
  epub.Transform := fun _ r => r
|}.

(** An EPUB 2 package whose spine names the table of contents [ncx], an id
    that no manifest entry has; the entry [toc] is an NCX index. *)
Definition danglingToc : epub.PackageDocument := {|
  epub.Path := "OEBPS/content.opf";
  epub.EPUBVersion := float64_2;
  epub.Manifest :=
    [ {| epub.Href := "chapter1.xhtml"; epub.ID := "c1";
         epub.MediaType := "application/xhtml+xml"; epub.Properties := [] |};
      {| epub.Href := "toc.ncx"; epub.ID := "toc";
         epub.MediaType := "application/x-dtbncx+xml"; epub.Properties := [] |} ];
  epub.SpineOf := {| epub.TOC := "ncx" |}
|}.

(** An EPUB 2 package whose spine names the NCX index of the manifest. *)
Definition epub2 : epub.PackageDocument := {|
  epub.Path := "OEBPS/content.opf";
  epub.EPUBVersion := float64_2;
  epub.Manifest :=
    [ {| epub.Href := "chapter1.xhtml"; epub.ID := "c1";
         epub.MediaType := "application/xhtml+xml"; epub.Properties := [] |};
      {| epub.Href := "toc.ncx"; epub.ID := "ncx";
         epub.MediaType := "application/x-dtbncx+xml"; epub.Properties := [] |} ];
  epub.SpineOf := {| epub.TOC := "ncx" |}
|}.

(** An EPUB 3 package with a navigation document and an NCX index. *)
Definition epub3 : epub.PackageDocument := {|
  epub.Path := "OEBPS/content.opf";
  epub.EPUBVersion := float64_3;
  epub.Manifest :=
    [ {| epub.Href := "toc.ncx"; epub.ID := "ncx";
         epub.MediaType := "application/x-dtbncx+xml"; epub.Properties := [] |};
      {| epub.Href := "nav.xhtml"; epub.ID := "nav";
         epub.MediaType := "application/xhtml+xml";
         epub.Properties := ["http://idpf.org/epub/vocab/package/item/#nav"] |} ];
  epub.SpineOf := {| epub.TOC := "ncx" |}
|}.

Definition opf : xmlquery.Node := xmlquery.Element "package" [("version", "2.0")] [].

(** [<display_options><platform name="*">
       <option name="fixed-layout">true</option>
     </platform></display_options>] *)
Definition displayOptionsXml : xmlquery.Node :=
  xmlquery.Element "display_options" []
    [xmlquery.Element "platform" [("name", "*")]
       [xmlquery.Element "option" [("name", "fixed-layout")] [xmlquery.Text "true"]]].

(** The package document is an EPUB 2 one, the identifier is empty. *)
Definition env2 : epub.EpubEnv := epubEnv danglingToc "".

(** The package document is an EPUB 3 one, with an identifier. *)
Definition env3 : epub.EpubEnv := epubEnv epub3 "urn:uuid:0d5a1c6e".

Definition epubAsset : asset.PublicationAsset :=
  {| asset.Name := "book.epub"; asset.MediaType := "application/epub+zip" |}.

Definition zipAsset : asset.PublicationAsset :=
  {| asset.Name := "comic.zip"; asset.MediaType := "application/zip" |}.

Definition a_png : manifest.Link :=
  {| manifest.Href := "a.png"; manifest.MediaType := "image/png";
     manifest.Title := "A"; manifest.Rels := ["alternate"];
     manifest.Properties := [("page", "left")] |}.
Definition b_jpg : manifest.Link := file "b.jpg" "image/jpeg".
Definition c_png : manifest.Link := file "c.png" "image/png".
Definition x_exe : manifest.Link := file "X.EXE" "application/octet-stream".
Definition metadata_xml : manifest.Link := file "metadata.xml" "application/xml".

(** The archive of the three bitmaps, listed as b.jpg, a.png, c.png. *)
Definition comic : fetcher.Fetcher := archive [b_jpg; a_png; c_png] [].

(** An EPUB archive with its package document, a navigation document and
    an NCX index; no encryption.xml and no display options. *)
Definition book : fetcher.Fetcher :=
  archive []
    [("OEBPS/content.opf", opf);
     ("nav.xhtml", xmlquery.Element "html" [] []);
     ("toc.ncx", xmlquery.Element "ncx" [] [])].

(** An archive whose package document has another root element. *)
Definition badBook : fetcher.Fetcher :=
  archive [] [("OEBPS/content.opf", xmlquery.Element "html" [] [])].

(** An archive with the Kobo display options only. *)
Definition koboOnly : fetcher.Fetcher :=
  archive [] [("META-INF/com.kobobooks.display-options.xml", displayOptionsXml)].

(** A fetcher that cannot list its links. *)
Definition unlistable : fetcher.Fetcher :=
  fetcher.Base ([], Some (fetcher.Foreign "cannot list the archive"))
    (fun _ => {| fetcher.ReadAsXML := fun _ =>
                   inr {| fetcher.Code := 500; fetcher.Message := "closed" |} |}).

Definition cbzAsset : asset.PublicationAsset :=
  {| asset.Name := "comic.cbz"; asset.MediaType := "application/vnd.comicbook+zip" |}.

(** An environment whose root-file discovery fails. *)
Definition envNoRoot : epub.EpubEnv := {|
  epub.NamespaceOPF := epub.NamespaceOPF (EpubEnv := env3);
  epub.NamespaceDC := epub.NamespaceDC (EpubEnv := env3);
  epub.VocabularyDCTerms := epub.VocabularyDCTerms (EpubEnv := env3);
  epub.NamespaceENC := epub.NamespaceENC (EpubEnv := env3);
  epub.NamespaceSIG := epub.NamespaceSIG (EpubEnv := env3);
  epub.NamespaceCOMP := epub.NamespaceCOMP (EpubEnv := env3);
  epub.NamespaceNCX := epub.NamespaceNCX (EpubEnv := env3);
  epub.NamespaceXHTML := epub.NamespaceXHTML (EpubEnv := env3);
  epub.NamespaceOPS := epub.NamespaceOPS (EpubEnv := env3);
  epub.VocabularyItem := epub.VocabularyItem (EpubEnv := env3);
  epub.RecommendedReflowableStrategy :=
    epub.RecommendedReflowableStrategy (EpubEnv := env3);
  epub.GetRootFilePath := fun _ => ("", Some (fetcher.Foreign "no container.xml"));
  epub.ParsePackageDocument := epub.ParsePackageDocument (EpubEnv := env3);
  epub.ParseNCX := epub.ParseNCX (EpubEnv := env3);
  epub.ParseNavDoc := epub.ParseNavDoc (EpubEnv := env3);
  epub.ParseEncryption := epub.ParseEncryption (EpubEnv := env3);
  epub.Resolve := epub.Resolve (EpubEnv := env3);
  epub.Create := epub.Create (EpubEnv := env3);
  epub.Transform := epub.Transform (EpubEnv := env3)
|}.

(** A package document whose version did not parse to a number. *)
Definition epubNaN : epub.PackageDocument := {|
  epub.Path := "OEBPS/content.opf";
  epub.EPUBVersion := S754_nan;
  epub.Manifest := epub.Manifest epub3;
  epub.SpineOf := epub.SpineOf epub3
|}.

(** [epub3] with other ids and media types and another spine. *)
Definition epub3renamed : epub.PackageDocument := {|
  epub.Path := "OEBPS/content.opf";
  epub.EPUBVersion := float64_3;
  epub.Manifest :=
    [ {| epub.Href := "toc.ncx"; epub.ID := "x1";
         epub.MediaType := "text/plain"; epub.Properties := [] |};
      {| epub.Href := "nav.xhtml"; epub.ID := "x2";
         epub.MediaType := "application/x-dtbncx+xml";
         epub.Properties := ["http://idpf.org/epub/vocab/package/item/#nav"] |} ];
  epub.SpineOf := {| epub.TOC := "" |}
|}.

(** Display options where [fixed-layout] is given twice and two options
    are incomplete. *)
Definition repeatedOptionsXml : xmlquery.Node :=
  xmlquery.Element "display_options" []
    [xmlquery.Element "platform" [("name", "*")]
       [xmlquery.Element "option" [("name", "fixed-layout")] [xmlquery.Text "true"];
        xmlquery.Element "option" [("name", "open-to-spread")] [];
        xmlquery.Element "option" [] [xmlquery.Text "orphan"];
        xmlquery.Element "option" [("name", "fixed-layout")] [xmlquery.Text "false"]]].

(** Both display-options documents are there. *)
Definition appleAndKobo : fetcher.Fetcher :=
  archive []
    [("META-INF/com.apple.ibooks.display-options.xml", repeatedOptionsXml);
     ("META-INF/com.kobobooks.display-options.xml", displayOptionsXml)].

(** The Apple document only. *)
Definition appleOnly : fetcher.Fetcher :=
  archive [] [("META-INF/com.apple.ibooks.display-options.xml", repeatedOptionsXml)].
End Sample.

(* ===================================================================== *)
(** ** Vocabulary of the statements                                       *)
(* ===================================================================== *)

(** A link that the image parser keeps: neither hidden nor a system file,
    and a bitmap. *)
Definition kept `{!mediatype.Ops, !ImageEnv} (link : manifest.Link) : bool :=
  negb (IsHiddenOrThumbs (LinkPath link))
  && mediatype.IsBitmap (manifest.MediaType link).

(** A link that does not stand in the way of acceptance: hidden or a system
    file, or a bitmap, or with an extension of the allow-list. *)
Definition admissible `{!mediatype.Ops, !ImageEnv} (link : manifest.Link) : Prop :=
  IsHiddenOrThumbs (LinkPath link) = false ->
  mediatype.IsBitmap (manifest.MediaType link) = false ->
  ImageParser.fext_of (LinkPath link) ∈ ImageParser.allowed_extensions_image.

(** [a <= b] on strings, byte-wise. *)
Definition string_le (a b : string) : Prop := String.leb a b = true.

(** The order that [sort.Slice] leaves behind, for [less]: no element is
    less than the one before it. *)
Definition sortedBy {A} (less : A -> A -> bool) : list A -> Prop :=
  Sorted (fun a b => less b a = false).

(** A call of the legacy-index strategy: the read of the NCX document or
    the call of its parser. *)
Definition legacyCall `{!epub.EpubEnv} (e : Event) : Prop :=
  match e with
  | ReadXML _ prefixes => prefixes = [(epub.NamespaceNCX, "ncx")]
  | CallParseNCX _ => True
  | _ => False
  end.

(** A call of the navigation-document strategy. *)
Definition modernCall `{!epub.EpubEnv} (e : Event) : Prop :=
  match e with
  | ReadXML _ prefixes =>
      prefixes = [(epub.NamespaceXHTML, "html"); (epub.NamespaceOPS, "epub")]
  | CallParseNavDoc _ => True
  | _ => False
  end.

(** The name/value pairs of the [option] elements of the first [platform]
    element of a display-options document, those with an empty name or an
    empty value left out; none when there is no [platform] element. *)
Definition optionPairs `{!xmlquery.Query} (doc : xmlquery.Node)
  : list (string * string) :=
  match xmlquery.SelectElement doc "//platform" with
  | None => []
  | Some platform =>
      List.filter
        (fun kv => negb (String.eqb (fst kv) "") && negb (String.eqb (snd kv) ""))
        (List.map (fun o => (xmlquery.SelectAttr o "name", xmlquery.InnerText o))
           (xmlquery.SelectElements platform "option"))
  end.

Definition appleDisplayOptions := "META-INF/com.apple.ibooks.display-options.xml".
Definition koboDisplayOptions := "META-INF/com.kobobooks.display-options.xml".

(** [item] is the first of [items] that satisfies [cond]. *)
Definition firstWith (cond : epub.Item -> bool) (items : list epub.Item)
    (item : epub.Item) : Prop :=
  exists before after,
    items = before ++ item :: after
    /\ cond item = true
    /\ Forall (fun v => cond v = false) before.

(** The prefix bindings of the three reads that have some. *)
Definition opfPrefixes `{!epub.EpubEnv} : list (string * string) :=
  [(epub.NamespaceOPF, "opf"); (epub.NamespaceDC, "dc");
   (epub.VocabularyDCTerms, "dcterms");
   ("http://www.idpf.org/2013/rendition", "rendition")].

Definition ncxPrefixes `{!epub.EpubEnv} : list (string * string) :=
  [(epub.NamespaceNCX, "ncx")].

Definition navPrefixes `{!epub.EpubEnv} : list (string * string) :=
  [(epub.NamespaceXHTML, "html"); (epub.NamespaceOPS, "epub")].

Definition encPrefixes `{!epub.EpubEnv} : list (string * string) :=
  [(epub.NamespaceENC, "enc"); (epub.NamespaceSIG, "ds"); (epub.NamespaceCOMP, "comp")].

(** What the fetcher answers when the document at [href] is read as XML. *)
Definition answer (f : fetcher.Fetcher) (href : string)
    (prefixes : list (string * string))
  : xmlquery.Node + fetcher.ResourceError :=
  fetcher.ReadAsXML (fetcher.Get f (manifest.LinkOfHref href)) prefixes.

(** Two package documents with the same path and version whose manifest
    entries agree, one by one, on href and properties. *)
Definition sameForNavDoc (a b : epub.PackageDocument) : Prop :=
  epub.Path a = epub.Path b
  /\ epub.EPUBVersion a = epub.EPUBVersion b
  /\ Forall2 (fun v w => epub.Href v = epub.Href w
                         /\ epub.Properties v = epub.Properties w)
       (epub.Manifest a) (epub.Manifest b).

(** An extension proper: some bytes, none of them a dot or a separator. *)
Definition plainExtension (e : string) : Prop :=
  e <> ""
  /\ Forall (fun c => c <> "."%char /\ c <> "/"%char) (list_ascii_of_string e).

(** [doc] is the display-options document that [parseDisplayOptions] takes:
    the Apple one, or the Kobo one when the Apple one cannot be read. *)
Definition displayOptionsOf (f : fetcher.Fetcher) (doc : xmlquery.Node) : Prop :=
  answer f appleDisplayOptions [] = inl doc
  \/ ((exists err, answer f appleDisplayOptions [] = inr err)
      /\ answer f koboDisplayOptions [] = inl doc).

(** The path of a manifest entry, resolved against the package document. *)
Definition pathOf `{!epub.EpubEnv} (packageDocument : epub.PackageDocument)
    (item : epub.Item) : string :=
  epub.Resolve (epub.Path packageDocument) (epub.Href item).

(* ===================================================================== *)
(** ** The byte-wise order on strings                                     *)
(* ===================================================================== *)

Lemma string_leb_refl s : String.leb s s = true.
Proof. destruct (String.leb_total s s); assumption. Qed.

Lemma string_leb_trans s1 s2 s3 :
  String.leb s1 s2 = true -> String.leb s2 s3 = true -> String.leb s1 s3 = true.
Proof.
  unfold String.leb. revert s2 s3.
  induction s1 as [|c1 s1 IH]; intros [|c2 s2] [|c3 s3]; cbn; try done.
  unfold Ascii.compare.
  destruct (N.compare_spec (N_of_ascii c1) (N_of_ascii c2)),
           (N.compare_spec (N_of_ascii c2) (N_of_ascii c3)),
           (N.compare_spec (N_of_ascii c1) (N_of_ascii c3));
    try done; try lia; eauto.
Qed.

Lemma string_ltb_false_leb a b : String.ltb b a = false <-> String.leb a b = true.
Proof.
  unfold String.ltb, String.leb. rewrite (String.compare_antisym b a).
  destruct (String.compare a b); cbn; split; congruence.
Qed.

Lemma string_ltb_asym a b : String.ltb a b = true -> String.ltb b a = false.
Proof.
  unfold String.ltb. rewrite (String.compare_antisym a b).
  destruct (String.compare b a); cbn; congruence.
Qed.

#[local] Instance string_le_trans : Transitive string_le.
Proof. intros a b c. apply string_leb_trans. Qed.

#[local] Instance string_le_antisym : AntiSymm (=) string_le.
Proof. intros a b. apply String.leb_antisym. Qed.

(* ===================================================================== *)
(** ** Lists: permutations told apart by a key                            *)
(* ===================================================================== *)

Lemma perm_same_keys {A K} (key : A -> K) (l l' : list A) :
  l ≡ₚ l' -> NoDup (key <$> l') -> key <$> l = key <$> l' -> l = l'.
Proof.
  revert l'. induction l as [|x l IH]; intros [|y l'] Hp Hnd Hk; try done.
  cbn in Hk. injection Hk as Hxy Hk.
  apply NoDup_cons in Hnd as [Hy Hnd].
  assert (x = y) as ->.
  { assert (x ∈ y :: l') as Hin by (rewrite <- Hp; left).
    apply elem_of_cons in Hin as [|Hin]; [done|].
    exfalso. apply Hy. rewrite <- Hxy. apply list_elem_of_fmap. eauto. }
  f_equal. apply IH; [|done..]. by apply (Permutation_cons_inv (a := y)).
Qed.

(* ===================================================================== *)
(** ** Go's insertion sort meets the contract of [sort.Slice]             *)
(* ===================================================================== *)

Section insertion_sort.
Context {A : Type} (less : A -> A -> bool).
Hypothesis less_asym : forall x y, less x y = true -> less y x = false.

Lemma sink_perm x left : Sample.sink less x left ≡ₚ x :: left.
Proof.
  induction left as [|y more IH]; cbn; [done|].
  destruct (less x y); [|done]. rewrite IH. apply Permutation_swap.
Qed.

Lemma sink_hd x y left :
  less y x = false -> HdRel (fun a b => less a b = false) y left ->
  HdRel (fun a b => less a b = false) y (Sample.sink less x left).
Proof.
  intros Hyx Hhd. destruct left as [|z more]; cbn; [by constructor|].
  destruct (less x z); constructor; [by inversion Hhd | done].
Qed.

Lemma sink_sorted x left :
  Sorted (fun a b => less a b = false) left ->
  Sorted (fun a b => less a b = false) (Sample.sink less x left).
Proof.
  induction 1 as [|y more Hs IH Hhd]; cbn.
  - repeat constructor.
  - destruct (less x y) eqn:Hxy.
    + constructor; [done|]. apply sink_hd; auto.
    + repeat constructor; done.
Qed.

Lemma sinks_perm data left :
  fold_left (fun left x => Sample.sink less x left) data left ≡ₚ data ++ left.
Proof.
  revert left. induction data as [|x data IH]; intros left; cbn; [done|].
  rewrite IH, sink_perm. by rewrite Permutation_middle.
Qed.

Lemma sinks_sorted data left :
  Sorted (fun a b => less a b = false) left ->
  Sorted (fun a b => less a b = false)
    (fold_left (fun left x => Sample.sink less x left) data left).
Proof.
  revert left. induction data as [|x data IH]; intros left Hs; cbn; [done|].
  apply IH, sink_sorted, Hs.
Qed.

Lemma insertionSort_perm data : Sample.insertionSort less data ≡ₚ data.
Proof.
  unfold Sample.insertionSort.
  rewrite reverse_Permutation, sinks_perm. by rewrite app_nil_r.
Qed.

Lemma insertionSort_sorted data : sortedBy less (Sample.insertionSort less data).
Proof.
  unfold Sample.insertionSort, sortedBy.
  apply (Sorted_reverse (fun a b => less a b = false)), sinks_sorted. constructor.
Qed.
End insertion_sort.

(* ===================================================================== *)
(** ** The image parser                                                   *)
(* ===================================================================== *)

Section image.
Context `{!mediatype.Ops, !ImageEnv}.

Lemma collect_from links readingOrder :
  fold_left
    (fun readingOrder link =>
       let path := LinkPath link in
       if IsHiddenOrThumbs path || negb (mediatype.IsBitmap (manifest.MediaType link))
       then readingOrder
       else readingOrder ++ [link])
    links readingOrder
  = readingOrder ++ List.filter kept links.
Proof.
  revert readingOrder. induction links as [|link links IH]; intros ro; cbn.
  - by rewrite app_nil_r.
  - rewrite IH. unfold kept.
    destruct (IsHiddenOrThumbs (LinkPath link)),
             (mediatype.IsBitmap (manifest.MediaType link)); cbn; try done.
    by rewrite <- app_assoc.
Qed.

Lemma collect_filter links : ImageParser.collect links = List.filter kept links.
Proof. apply (collect_from links []). Qed.

Lemma accepts_loop_cases links :
  (Forall admissible links /\ ImageParser.accepts_loop links = (true, None))
  \/ (~ Forall admissible links /\ ImageParser.accepts_loop links = (false, None)).
Proof.
  induction links as [|link links IH]; cbn.
  - left. split; [constructor | done].
  - assert (admissible link -> 
            (Forall admissible (link :: links) /\
               ImageParser.accepts_loop links = (true, None))
            \/ (~ Forall admissible (link :: links) /\
               ImageParser.accepts_loop links = (false, None))) as Hrest.
    { intros Hl. destruct IH as [[Hall ->]|[Hnot ->]]; [left|right]; split; try done.
      - by constructor.
      - intros Hall. apply Hnot. by inversion Hall. }
    destruct (IsHiddenOrThumbs (LinkPath link)) eqn:Hh.
    { apply Hrest. unfold admissible. congruence. }
    destruct (mediatype.IsBitmap (manifest.MediaType link)) eqn:Hb.
    { apply Hrest. unfold admissible. congruence. }
    destruct (bool_decide_reflect
                (ImageParser.fext_of (LinkPath link)
                   ∈ ImageParser.allowed_extensions_image)) as [Hin|Hout]; cbn.
    { apply Hrest. intros ? ?; done. }
    right. split; [|done]. intros Hall. inversion Hall as [|? ? Hl]; subst.
    apply Hout, Hl; done.
Qed.

Lemma tagCover_hrefs readingOrder :
  manifest.Href <$> ImageParser.tagCover readingOrder = manifest.Href <$> readingOrder.
Proof. by destruct readingOrder. Qed.

(** What [Parse] returns once the asset is accepted and a bitmap is kept. *)
Lemma Parse_accepted asset f links :
  ImageParser.accepts asset f = (true, None) ->
  fetcher.Links f = (links, None) ->
  List.filter kept links <> [] ->
  exists b,
    ImageParser.Parse asset f = (Some b, None)
    /\ pub.BuilderFetcher b = f
    /\ manifest.ReadingOrder (pub.BuilderManifest b)
       = ImageParser.tagCover (sortSlice ImageParser.hrefLess (List.filter kept links)).
Proof.
  intros Hacc Hlinks Hne. unfold ImageParser.Parse.
  rewrite Hacc, Hlinks. cbn. rewrite collect_filter.
  destruct (List.filter kept links) as [|x l] eqn:Hf; [done|]. cbn.
  eexists. split; [reflexivity|]. split; reflexivity.
Qed.

(** When the asset is accepted and no bitmap is kept. *)
Lemma Parse_no_bitmap asset f links :
  ImageParser.accepts asset f = (true, None) ->
  fetcher.Links f = (links, None) ->
  List.filter kept links = [] ->
  ImageParser.Parse asset f
  = (None, Some (fetcher.New "no bitmap found in the publication")).
Proof.
  intros Hacc Hlinks He. unfold ImageParser.Parse.
  rewrite Hacc, Hlinks. cbn. by rewrite collect_filter, He.
Qed.

(** Links that are all bitmaps and not hidden are accepted whatever the
    media type of the asset. *)
Lemma accepts_all_kept asset f links :
  fetcher.Links f = (links, None) ->
  Forall (fun link => kept link = true) links ->
  ImageParser.accepts asset f = (true, None).
Proof.
  intros Hlinks Hall. unfold ImageParser.accepts. rewrite Hlinks.
  destruct (_ || _); [done|].
  destruct (accepts_loop_cases links) as [[_ ->]|[Hnot _]]; [done|].
  exfalso. apply Hnot. eapply Forall_impl; [exact Hall|].
  intros link Hk Hh Hb. unfold kept in Hk. rewrite Hb in Hk.
  by rewrite andb_false_r in Hk.
Qed.

Lemma sorted_hrefs (l : manifest.LinkList) :
  sortedBy ImageParser.hrefLess l ->
  StronglySorted string_le (manifest.Href <$> l).
Proof.
  intros Hs. apply Sorted_StronglySorted; [apply _|].
  eapply Sorted_fmap; [|exact Hs].
  intros a b Hab. by apply string_ltb_false_leb.
Qed.
End image.

Lemma filter_all_kept {A} (p : A -> bool) (l : list A) :
  Forall (fun x => p x = true) l -> List.filter p l = l.
Proof. induction 1 as [|x l Hx _ IH]; cbn; [done|]. by rewrite Hx, IH. Qed.

Section image_claims.
Context `{!mediatype.Ops, !ImageEnv}.

(** C3. Once the hidden or system files and the resources that are not
    bitmaps are filtered out, the reading order of the manifest is the
    remaining links in ascending byte-wise lexicographic order of their href
    strings (for every [sort.Slice] that permutes its slice and leaves it
    ordered by [less]), and its first link has the relation "cover"; for an
    archive whose links are exactly the bitmaps b.jpg, a.png and c.png, in
    any order, the reading order is a.png (tagged "cover"), b.jpg, c.png. *)
Theorem C3_reading_order_sorted asset f links :
  (forall l, sortSlice ImageParser.hrefLess l ≡ₚ l) ->
  (forall l, sortedBy ImageParser.hrefLess (sortSlice ImageParser.hrefLess l)) ->
  ImageParser.accepts asset f = (true, None) ->
  fetcher.Links f = (links, None) ->
  List.filter kept links <> [] ->
  exists b first rest,
    ImageParser.Parse asset f = (Some b, None)
    /\ first :: rest ≡ₚ List.filter kept links
    /\ manifest.ReadingOrder (pub.BuilderManifest b)
       = manifest.set_Rels ["cover"] first :: rest
    /\ StronglySorted string_le
         (manifest.Href <$> manifest.ReadingOrder (pub.BuilderManifest b))
    /\ (forall la lb lc,
          links ≡ₚ [la; lb; lc] ->
          Forall (fun link => kept link = true) links ->
          manifest.Href la = "a.png" ->
          manifest.Href lb = "b.jpg" ->
          manifest.Href lc = "c.png" ->
          manifest.ReadingOrder (pub.BuilderManifest b)
          = [manifest.set_Rels ["cover"] la; lb; lc]).
Proof.
  intros Hperm Hsorted Hacc Hlinks Hne.
  destruct (Parse_accepted asset f links Hacc Hlinks Hne) as (b & HP & _ & HRO).
  pose proof (Hperm (List.filter kept links)) as Hp.
  pose proof (sorted_hrefs _ (Hsorted (List.filter kept links))) as Hs.
  destruct (sortSlice ImageParser.hrefLess (List.filter kept links))
    as [|x r] eqn:Hsort.
  { by apply Permutation_nil in Hp. }
  exists b, x, r. rewrite HRO.
  split; [done|]. split; [done|]. split; [done|]. split; [done|].
  intros la lb lc Hl Hall Ha Hb Hc.
  rewrite (filter_all_kept _ _ Hall) in Hp.
  assert (manifest.Href <$> x :: r = ["a.png"; "b.jpg"; "c.png"]) as Hk.
  { apply (StronglySorted_unique string_le); [done| |].
    - repeat constructor; done.
    - rewrite Hp, Hl. cbn. by rewrite Ha, Hb, Hc. }
  assert (x :: r = [la; lb; lc]) as Hxr.
  { apply (perm_same_keys manifest.Href).
    - by rewrite Hp, Hl.
    - cbn. rewrite Ha, Hb, Hc.
      repeat constructor; rewrite ?elem_of_cons, ?elem_of_nil; intuition discriminate.
    - rewrite Hk. cbn. by rewrite Ha, Hb, Hc. }
  by injection Hxr as -> ->.
Qed.

(** C7. An asset whose media type is CBZ or CBR is accepted without a look
    at the archive. Otherwise, when the links can be listed, [accepts] never
    fails, and it accepts exactly when every link that is neither hidden or
    a system file nor a bitmap has its extension in the allow-list, which is
    acbf, xml, txt, json; so one link outside it, such as an .exe next to a
    bitmap, gives no-match and no error. *)
Theorem C7_accepts asset f :
  ((mediatype.Equal (asset.MediaType asset) mediatype.CBZ = true
    \/ mediatype.Equal (asset.MediaType asset) mediatype.CBR = true) ->
   ImageParser.accepts asset f = (true, None))
  /\ (forall ext, ext ∈ ImageParser.allowed_extensions_image <->
        ext = "acbf" \/ ext = "xml" \/ ext = "txt" \/ ext = "json")
  /\ (forall links,
        mediatype.Equal (asset.MediaType asset) mediatype.CBZ = false ->
        mediatype.Equal (asset.MediaType asset) mediatype.CBR = false ->
        fetcher.Links f = (links, None) ->
        (ImageParser.accepts asset f = (true, None)
         \/ ImageParser.accepts asset f = (false, None))
        /\ (ImageParser.accepts asset f = (true, None) <->
            forall link, link ∈ links ->
              IsHiddenOrThumbs (LinkPath link) = false ->
              mediatype.IsBitmap (manifest.MediaType link) = false ->
              ImageParser.fext_of (LinkPath link)
                ∈ ImageParser.allowed_extensions_image)
        /\ (forall bitmap exe,
              links ≡ₚ [bitmap; exe] ->
              kept bitmap = true ->
              IsHiddenOrThumbs (LinkPath exe) = false ->
              mediatype.IsBitmap (manifest.MediaType exe) = false ->
              ImageParser.fext_of (LinkPath exe) = "exe" ->
              ImageParser.accepts asset f = (false, None))).
Proof.
  split; [|split].
  - intros Hmt. unfold ImageParser.accepts.
    destruct Hmt as [-> | ->]; [done|]. by rewrite orb_true_r.
  - intros ext. unfold ImageParser.allowed_extensions_image.
    rewrite !elem_of_union, !elem_of_singleton. tauto.
  - intros links Hz Hr Hlinks.
    assert (ImageParser.accepts asset f = ImageParser.accepts_loop links) as ->.
    { unfold ImageParser.accepts. by rewrite Hz, Hr, Hlinks. }
    assert (Forall admissible links <->
            forall link, link ∈ links ->
              IsHiddenOrThumbs (LinkPath link) = false ->
              mediatype.IsBitmap (manifest.MediaType link) = false ->
              ImageParser.fext_of (LinkPath link)
                ∈ ImageParser.allowed_extensions_image) as Hall.
    { rewrite Forall_forall. unfold admissible. done. }
    destruct (accepts_loop_cases links) as [[Hok ->]|[Hno ->]].
    + split; [by left|]. split; [split; [intros _; by apply Hall | done]|].
      intros bitmap exe Hp _ Hh Hb Hext. exfalso.
      assert (exe ∈ links) as Hin by (rewrite Hp, !elem_of_cons; auto).
      pose proof (proj1 Hall Hok exe Hin Hh Hb) as Hbad.
      rewrite Hext in Hbad. revert Hbad.
      unfold ImageParser.allowed_extensions_image.
      rewrite !elem_of_union, !elem_of_singleton. intros [[[|]|]|]; done.
    + split; [by right|]. split; [|done].
      split; [done|]. intros Hforall. exfalso. by apply Hno, Hall.
Qed.

(** C8. For an accepted input whose links, once hidden or system files and
    resources that are not bitmaps are removed, leave nothing, [Parse] fails
    with the error "no bitmap found in the publication" and returns no
    builder; an archive that holds only a metadata.xml is accepted and then
    fails with this error. *)
Theorem C8_no_bitmap_is_an_error asset f links :
  fetcher.Links f = (links, None) ->
  List.filter kept links = [] ->
  String.prefix "no bitmap found" "no bitmap found in the publication" = true
  /\ (ImageParser.accepts asset f = (true, None) ->
      ImageParser.Parse asset f
      = (None, Some (fetcher.New "no bitmap found in the publication")))
  /\ (forall metadata,
        links = [metadata] ->
        ImageParser.fext_of (LinkPath metadata) = "xml" ->
        ImageParser.accepts asset f = (true, None)
        /\ ImageParser.Parse asset f
           = (None, Some (fetcher.New "no bitmap found in the publication"))).
Proof.
  intros Hlinks He. split; [done|]. split.
  - intros Hacc. by apply (Parse_no_bitmap asset f links).
  - intros metadata -> Hext.
    assert (ImageParser.accepts asset f = (true, None)) as Hacc.
    { unfold ImageParser.accepts. rewrite Hlinks. destruct (_ || _); [done|].
      cbn.
      destruct (IsHiddenOrThumbs (LinkPath metadata)); [done|].
      destruct (mediatype.IsBitmap (manifest.MediaType metadata)); [done|].
      by rewrite Hext. }
    split; [done|]. by apply (Parse_no_bitmap asset f [metadata]).
Qed.

(** C10. Tagging the cover replaces the relations of the first link of the
    sorted reading order by exactly ["cover"], whatever relations the link
    had; the other fields of that link and all the other links of the
    reading order stay as the sort left them. *)
Theorem C10_cover_frame asset f links :
  (forall l, sortSlice ImageParser.hrefLess l ≡ₚ l) ->
  ImageParser.accepts asset f = (true, None) ->
  fetcher.Links f = (links, None) ->
  List.filter kept links <> [] ->
  exists b first rest,
    ImageParser.Parse asset f = (Some b, None)
    /\ sortSlice ImageParser.hrefLess (List.filter kept links) = first :: rest
    /\ manifest.ReadingOrder (pub.BuilderManifest b)
       = {| manifest.Href := manifest.Href first;
            manifest.MediaType := manifest.MediaType first;
            manifest.Title := manifest.Title first;
            manifest.Rels := ["cover"];
            manifest.Properties := manifest.Properties first |} :: rest.
Proof.
  intros Hperm Hacc Hlinks Hne.
  destruct (Parse_accepted asset f links Hacc Hlinks Hne) as (b & HP & _ & HRO).
  pose proof (Hperm (List.filter kept links)) as Hp.
  destruct (sortSlice ImageParser.hrefLess (List.filter kept links))
    as [|x r] eqn:Hsort.
  { by apply Permutation_nil in Hp. }
  by exists b, x, r.
Qed.
End image_claims.

(* ===================================================================== *)
(** ** [float64] comparison                                               *)
(* ===================================================================== *)

Lemma SFleb_not_SFltb (a b : float64) : SFleb a b = true -> SFltb b a = false.
Proof.
  unfold SFleb, SFltb.
  destruct a as [[]|[]| |[] ma ea], b as [[]|[]| |[] mb eb]; cbn; try done.
  all: destruct (Z.compare_spec ea eb), (Z.compare_spec eb ea);
    try lia; cbn; try done.
  all: change (Pos.compare_cont Eq ma mb) with (Pos.compare ma mb);
    change (Pos.compare_cont Eq mb ma) with (Pos.compare mb ma);
    destruct (Pos.compare_spec ma mb), (Pos.compare_spec mb ma);
    try lia; cbn; done.
Qed.

(* ===================================================================== *)
(** ** The EPUB parser                                                    *)
(* ===================================================================== *)

Lemma firstItem_Some cond items item :
  epub.firstItem cond items = Some item <-> firstWith cond items item.
Proof.
  induction items as [|v items IH]; cbn.
  - split; [done|]. intros (before & after & Heq & _). by destruct before.
  - destruct (cond v) eqn:Hv.
    + split.
      * intros [= ->]. exists [], items. by repeat split.
      * intros (before & after & Heq & Hi & Hb). destruct before as [|w before].
        { by injection Heq as ->. }
        injection Heq as -> _. inversion Hb; congruence.
    + rewrite IH. split.
      * intros (before & after & -> & Hi & Hb).
        exists (v :: before), after. repeat split; [done|by constructor].
      * intros (before & after & Heq & Hi & Hb). destruct before as [|w before].
        { injection Heq as -> _. congruence. }
        injection Heq as -> ->. exists before, after. by inversion Hb.
Qed.

Lemma firstItem_None cond items :
  epub.firstItem cond items = None <-> Forall (fun v => cond v = false) items.
Proof.
  induction items as [|v items IH]; cbn.
  - split; [constructor | done].
  - destruct (cond v) eqn:Hv.
    + split; [done|]. intros Hall. inversion Hall; congruence.
    + rewrite IH. split; [by constructor | by inversion 1].
Qed.

Lemma fetcher_not_its_own_transform f transform :
  fetcher.NewTransformingFetcher f transform <> f.
Proof.
  revert transform. induction f as [|inner IH t]; intros transform; [done|].
  intros [= Hinner _]. by apply (IH t).
Qed.

Section epub_lemmas.
Context `{!mediatype.Ops, !xmlquery.Query, !epub.EpubEnv}.

(** The legacy branch of [parseNavigationData], case by case. *)
Lemma parseNavigationData_legacy packageDocument f :
  SFltb (epub.EPUBVersion packageDocument) float64_3 = true ->
  epub.parseNavigationData packageDocument f
  = match epub.ncxItem packageDocument with
    | None => traced (made ∅) []
    | Some item =>
        let ncxPath := pathOf packageDocument item in
        match answer f ncxPath ncxPrefixes with
        | inr _ => traced (made ∅) [ReadXML ncxPath ncxPrefixes]
        | inl n =>
            traced (epub.ParseNCX n ncxPath)
              [ReadXML ncxPath ncxPrefixes; CallParseNCX ncxPath]
        end
    end.
Proof.
  intros Hv. unfold epub.parseNavigationData. rewrite Hv.
  destruct (epub.ncxItem packageDocument) as [item|]; [|done].
  unfold answer, pathOf, ncxPrefixes, epub.readAsXML, manifest.NewHREF. cbn.
  by destruct (fetcher.ReadAsXML _ _).
Qed.

(** The navigation-document branch, case by case. *)
Lemma parseNavigationData_modern packageDocument f :
  SFltb (epub.EPUBVersion packageDocument) float64_3 = false ->
  epub.parseNavigationData packageDocument f
  = match epub.navItem packageDocument with
    | None => traced (made ∅) []
    | Some item =>
        let navPath := pathOf packageDocument item in
        match answer f navPath navPrefixes with
        | inr _ => traced (made ∅) [ReadXML navPath navPrefixes]
        | inl n =>
            traced (epub.ParseNavDoc n navPath)
              [ReadXML navPath navPrefixes; CallParseNavDoc navPath]
        end
    end.
Proof.
  intros Hv. unfold epub.parseNavigationData. rewrite Hv.
  destruct (epub.navItem packageDocument) as [item|]; [|done].
  unfold answer, pathOf, navPrefixes, epub.readAsXML, manifest.NewHREF. cbn.
  by destruct (fetcher.ReadAsXML _ _).
Qed.

Lemma parseEncryptionData_cases f :
  epub.parseEncryptionData f
  = match answer f "META-INF/encryption.xml" encPrefixes with
    | inr _ => traced nilmap [ReadXML "META-INF/encryption.xml" encPrefixes]
    | inl n =>
        traced (epub.ParseEncryption n)
          [ReadXML "META-INF/encryption.xml" encPrefixes; CallParseEncryption]
    end.
Proof.
  unfold epub.parseEncryptionData, answer, encPrefixes, epub.readAsXML,
    manifest.MustNewHREFFromString. cbn.
  by destruct (fetcher.ReadAsXML _ _).
Qed.

Lemma parseDisplayOptions_cases f :
  epub.parseDisplayOptions f
  = match answer f appleDisplayOptions [] with
    | inl doc =>
        traced (made (epub.platformOptions doc ∅)) [ReadXML appleDisplayOptions []]
    | inr _ =>
        match answer f koboDisplayOptions [] with
        | inl doc =>
            traced (made (epub.platformOptions doc ∅))
              [ReadXML appleDisplayOptions []; ReadXML koboDisplayOptions []]
        | inr _ =>
            traced (made ∅)
              [ReadXML appleDisplayOptions []; ReadXML koboDisplayOptions []]
        end
    end.
Proof.
  unfold epub.parseDisplayOptions, answer, epub.readAsXML,
    manifest.MustNewHREFFromString, appleDisplayOptions, koboDisplayOptions. cbn.
  destruct (fetcher.ReadAsXML _ _); [done|]. cbn.
  by destruct (fetcher.ReadAsXML _ _).
Qed.

(** The loop over the options inserts the pairs from first to last. *)
Lemma addOption_fold options (ret : gmap string string) :
  fold_left epub.addOption options ret
  = foldr (fun kv => <[kv.1 := kv.2]>) ret
      (reverse
         (List.filter
            (fun kv => negb (String.eqb (fst kv) "") && negb (String.eqb (snd kv) ""))
            (List.map (fun o => (xmlquery.SelectAttr o "name", xmlquery.InnerText o))
               options))).
Proof.
  revert ret. induction options as [|o options IH]; intros ret; [done|].
  change (fold_left epub.addOption (o :: options) ret)
    with (fold_left epub.addOption options (epub.addOption ret o)).
  rewrite IH. unfold epub.addOption. cbn [List.map List.filter fst snd].
  destruct (negb _ && negb _); [|done].
  by rewrite reverse_cons, foldr_app.
Qed.

Lemma platformOptions_pairs doc :
  epub.platformOptions doc ∅ = list_to_map (reverse (optionPairs doc)).
Proof.
  unfold epub.platformOptions, optionPairs.
  destruct (xmlquery.SelectElement doc "//platform"); [|done].
  apply addOption_fold.
Qed.

Lemma optionPairs_nonempty doc k v :
  (k, v) ∈ optionPairs doc -> k <> "" /\ v <> "".
Proof.
  unfold optionPairs. destruct (xmlquery.SelectElement doc "//platform").
  - rewrite list_elem_of_In, filter_In. cbn. intros [_ Hne].
    apply andb_prop in Hne as [Hk Hv].
    split; intros ->; done.
  - by rewrite elem_of_nil.
Qed.

(** What [Parse] returns once the package document is read and parsed. *)
Lemma Parse_builds p asset f opfPath doc packageDocument :
  mediatype.Equal (asset.MediaType asset) mediatype.EPUB = true ->
  epub.GetRootFilePath f = (opfPath, None) ->
  answer f opfPath opfPrefixes = inl doc ->
  epub.ParsePackageDocument doc opfPath = inl packageDocument ->
  exists b,
    value (epub.Parse p asset f) = (Some b, None)
    /\ pub.BuilderManifest b
       = epub.Create
           {| epub.FallbackTitle := asset.Name asset;
              epub.PackageDocumentOf := packageDocument;
              epub.NavigationData :=
                value (epub.parseNavigationData packageDocument f);
              epub.EncryptionData := value (epub.parseEncryptionData f);
              epub.DisplayOptions := value (epub.parseDisplayOptions f) |}
    /\ pub.BuilderFetcher b
       = if negb (String.eqb
                    (manifest.Identifier (manifest.MetadataOf (pub.BuilderManifest b)))
                    "")
         then fetcher.NewTransformingFetcher f
                (epub.Transform
                   (epub.NewDeobfuscator
                      (manifest.Identifier
                         (manifest.MetadataOf (pub.BuilderManifest b)))))
         else f.
Proof.
  intros Hmt Hroot Hread Hparse. unfold epub.Parse. rewrite Hmt. cbn.
  rewrite Hroot. cbn.
  unfold answer, opfPrefixes in Hread. unfold manifest.NewHREF.
  rewrite Hread. cbn. rewrite Hparse. cbn.
  eexists. split; [reflexivity|]. split; reflexivity.
Qed.
End epub_lemmas.

Section epub_claims.
Context `{!mediatype.Ops, !xmlquery.Query, !epub.EpubEnv}.

(** C1. The navigation map is built by one strategy only, chosen by the
    version of the package document: with a version of 3.0 or more, every
    call [parseNavigationData] makes is a call of the navigation-document
    strategy and none is a call of the legacy-index (NCX) strategy, whatever
    the manifest entries are; with a version below 3.0 every call is one of
    the legacy-index strategy and none one of the navigation-document
    strategy. *)
Theorem C1_strategy_exclusive packageDocument f :
  (SFleb float64_3 (epub.EPUBVersion packageDocument) = true ->
   Forall modernCall (trace (epub.parseNavigationData packageDocument f))
   /\ Forall (fun e => ~ legacyCall e)
        (trace (epub.parseNavigationData packageDocument f)))
  /\ (SFltb (epub.EPUBVersion packageDocument) float64_3 = true ->
      Forall legacyCall (trace (epub.parseNavigationData packageDocument f))
      /\ Forall (fun e => ~ modernCall e)
           (trace (epub.parseNavigationData packageDocument f))).
Proof.
  split.
  - intros Hv%SFleb_not_SFltb.
    rewrite (parseNavigationData_modern _ f Hv).
    destruct (epub.navItem packageDocument) as [item|]; cbn; [|by split].
    destruct (answer f _ _); cbn; split;
      repeat (apply Forall_cons; split); try apply Forall_nil;
      unfold modernCall, legacyCall, navPrefixes; first [done | tauto].
  - intros Hv.
    rewrite (parseNavigationData_legacy _ f Hv).
    destruct (epub.ncxItem packageDocument) as [item|]; cbn; [|by split].
    destruct (answer f _ _); cbn; split;
      repeat (apply Forall_cons; split); try apply Forall_nil;
      unfold modernCall, legacyCall, ncxPrefixes; first [done | tauto].
Qed.

(** C2, amended. With a version below 3.0, [parseNavigationData] takes as
    legacy navigation resource: when the spine declares a table-of-contents
    id, the first manifest entry that has this id, and no other entry
    (there is no fall back to the media type); when the spine declares
    none, the first manifest entry whose media type is the NCX type. When
    the rule that applies finds no entry, it returns an empty map and reads
    nothing; when it finds one, that entry's document is what it reads. *)
Theorem C2_legacy_resource packageDocument f :
  SFltb (epub.EPUBVersion packageDocument) float64_3 = true ->
  let toc := epub.TOC (epub.SpineOf packageDocument) in
  let items := epub.Manifest packageDocument in
  (toc <> "" ->
     (forall item, epub.ncxItem packageDocument = Some item <->
        firstWith (fun v => String.eqb (epub.ID v) toc) items item)
     /\ (epub.ncxItem packageDocument = None <->
           Forall (fun v => epub.ID v <> toc) items))
  /\ (toc = "" ->
        (forall item, epub.ncxItem packageDocument = Some item <->
           firstWith (fun v => mediatype.NCX_Contains (epub.MediaType v)) items item)
        /\ (epub.ncxItem packageDocument = None <->
              Forall (fun v => mediatype.NCX_Contains (epub.MediaType v) = false)
                items))
  /\ (epub.ncxItem packageDocument = None ->
        epub.parseNavigationData packageDocument f = traced (made ∅) [])
  /\ (forall item, epub.ncxItem packageDocument = Some item ->
        exists calls,
          trace (epub.parseNavigationData packageDocument f)
          = ReadXML (pathOf packageDocument item) ncxPrefixes :: calls).
Proof.
  intros Hv toc items. split; [|split; [|split]].
  - intros Hne. unfold epub.ncxItem. fold toc items.
    destruct (String.eqb_spec toc ""); [done|]. cbn.
    split; [intros item; apply firstItem_Some|].
    rewrite firstItem_None.
    split; intros Hall; (eapply Forall_impl; [exact Hall|]);
      intros v; by rewrite String.eqb_neq.
  - intros Heq. unfold epub.ncxItem. fold toc items. rewrite Heq. cbn.
    split; [intros item; apply firstItem_Some | apply firstItem_None].
  - intros Hnone. by rewrite (parseNavigationData_legacy _ f Hv), Hnone.
  - intros item Hsome. rewrite (parseNavigationData_legacy _ f Hv), Hsome. cbn.
    destruct (answer f _ _); cbn; eauto.
Qed.

(** C4. The three optional concerns never fail the parse and each gives an
    empty result on its own: [parseNavigationData] returns an empty map
    when no navigation resource is found or when its document cannot be
    read; [parseEncryptionData] returns the nil map, which is empty, when
    META-INF/encryption.xml cannot be read; [parseDisplayOptions] returns an
    empty map when neither display-options document can be read; and
    [Parse] returns a builder and no error as soon as the package document
    is located, read and parsed, whatever the fetcher answers for the
    other documents. *)
Theorem C4_soft_degradation p asset f :
  (forall packageDocument,
     (SFltb (epub.EPUBVersion packageDocument) float64_3 = true ->
      (epub.ncxItem packageDocument = None
       \/ exists item err,
            epub.ncxItem packageDocument = Some item
            /\ answer f (pathOf packageDocument item) ncxPrefixes = inr err) ->
      value (epub.parseNavigationData packageDocument f) = made ∅)
     /\ (SFltb (epub.EPUBVersion packageDocument) float64_3 = false ->
         (epub.navItem packageDocument = None
          \/ exists item err,
               epub.navItem packageDocument = Some item
               /\ answer f (pathOf packageDocument item) navPrefixes = inr err) ->
         value (epub.parseNavigationData packageDocument f) = made ∅))
  /\ (forall err,
        answer f "META-INF/encryption.xml" encPrefixes = inr err ->
        value (epub.parseEncryptionData f) = nilmap
        /\ gomap_len (value (epub.parseEncryptionData f)) = 0%nat)
  /\ (forall err1 err2,
        answer f appleDisplayOptions [] = inr err1 ->
        answer f koboDisplayOptions [] = inr err2 ->
        value (epub.parseDisplayOptions f) = made ∅)
  /\ (forall opfPath doc packageDocument,
        mediatype.Equal (asset.MediaType asset) mediatype.EPUB = true ->
        epub.GetRootFilePath f = (opfPath, None) ->
        answer f opfPath opfPrefixes = inl doc ->
        epub.ParsePackageDocument doc opfPath = inl packageDocument ->
        exists b, value (epub.Parse p asset f) = (Some b, None)).
Proof.
  split; [|split; [|split]].
  - intros packageDocument. split; intros Hv Hcase.
    + rewrite (parseNavigationData_legacy _ f Hv).
      destruct Hcase as [-> | (item & err & -> & Herr)]; [done|].
      cbn. by rewrite Herr.
    + rewrite (parseNavigationData_modern _ f Hv).
      destruct Hcase as [-> | (item & err & -> & Herr)]; [done|].
      cbn. by rewrite Herr.
  - intros err Herr. by rewrite parseEncryptionData_cases, Herr.
  - intros err1 err2 Ha Hk. by rewrite parseDisplayOptions_cases, Ha, Hk.
  - intros opfPath doc packageDocument Hmt Hroot Hread Hparse.
    destruct (Parse_builds p asset f opfPath doc packageDocument)
      as (b & Hb & _); eauto.
Qed.

(** C5. The fetcher that [Parse] hands to the builder is the base fetcher
    wrapped in the deobfuscation transform keyed by the identifier of the
    manifest exactly when this identifier is not empty: then every resource
    it gets is the base fetcher's resource passed through the transform;
    with an empty identifier it is the base fetcher itself. *)
Theorem C5_deobfuscation_iff_identifier p asset f opfPath doc packageDocument :
  mediatype.Equal (asset.MediaType asset) mediatype.EPUB = true ->
  epub.GetRootFilePath f = (opfPath, None) ->
  answer f opfPath opfPrefixes = inl doc ->
  epub.ParsePackageDocument doc opfPath = inl packageDocument ->
  exists b,
    value (epub.Parse p asset f) = (Some b, None)
    /\ let id := manifest.Identifier (manifest.MetadataOf (pub.BuilderManifest b)) in
       (id = "" -> pub.BuilderFetcher b = f)
       /\ (id <> "" ->
           pub.BuilderFetcher b
           = fetcher.NewTransformingFetcher f
               (epub.Transform (epub.NewDeobfuscator id))
           /\ forall link,
                fetcher.Get (pub.BuilderFetcher b) link
                = epub.Transform (epub.NewDeobfuscator id) (fetcher.Get f link))
       /\ (pub.BuilderFetcher b = f <-> id = "").
Proof.
  intros Hmt Hroot Hread Hparse.
  destruct (Parse_builds p asset f opfPath doc packageDocument)
    as (b & Hb & _ & Hf); [done..|].
  exists b. split; [done|]. cbn zeta.
  destruct (String.eqb_spec
              (manifest.Identifier (manifest.MetadataOf (pub.BuilderManifest b))) "")
    as [Heq|Hne]; cbn in Hf.
  - repeat split; try done.
  - repeat split; try done.
    + intros link. by rewrite Hf.
    + intros Hsame. rewrite Hf in Hsame.
      by apply fetcher_not_its_own_transform in Hsame.
Qed.

(** C6, amended. In [Parse], a failure to read the package document and a
    failure to parse it both end the parse with an error and no builder,
    and no further call is made: the error of the read is returned as the
    fetcher gave it, without a wrapper, and the error of
    [ParsePackageDocument] is returned wrapped with the message
    "invalid OPF file". *)
Theorem C6_package_document_errors p asset f opfPath :
  mediatype.Equal (asset.MediaType asset) mediatype.EPUB = true ->
  epub.GetRootFilePath f = (opfPath, None) ->
  (forall errx,
     answer f opfPath opfPrefixes = inr errx ->
     epub.Parse p asset f
     = traced (None, Some (fetcher.OfResource errx))
         [CallGetRootFilePath; ReadXML opfPath opfPrefixes])
  /\ (forall doc err,
        answer f opfPath opfPrefixes = inl doc ->
        epub.ParsePackageDocument doc opfPath = inr err ->
        epub.Parse p asset f
        = traced (None, Some (fetcher.Wrap err "invalid OPF file"))
            [CallGetRootFilePath; ReadXML opfPath opfPrefixes;
             CallParsePackageDocument opfPath]).
Proof.
  intros Hmt Hroot. unfold answer, opfPrefixes. split.
  - intros errx Hread. unfold epub.Parse. rewrite Hmt. cbn.
    rewrite Hroot. cbn. unfold manifest.NewHREF. by rewrite Hread.
  - intros doc err Hread Hparse. unfold epub.Parse. rewrite Hmt. cbn.
    rewrite Hroot. cbn. unfold manifest.NewHREF. rewrite Hread. cbn.
    by rewrite Hparse.
Qed.

(** C9. [parseDisplayOptions] reads the Apple document first and the Kobo
    document only when that read fails; the first document that is read
    gives the result and nothing else is read after it; when neither is
    read the result is an empty map. The result for a document is the map
    of the name/value pairs of the [option] elements of its first
    [platform] element, without the options that have an empty name or an
    empty value (of two options with one name the later one stays); so a
    Kobo document with the one option fixed-layout = true, and no Apple
    document, give the map with fixed-layout bound to true only. *)
Theorem C9_display_options f :
  (forall doc,
     answer f appleDisplayOptions [] = inl doc ->
     epub.parseDisplayOptions f
     = traced (made (list_to_map (reverse (optionPairs doc))))
         [ReadXML appleDisplayOptions []])
  /\ (forall err doc,
        answer f appleDisplayOptions [] = inr err ->
        answer f koboDisplayOptions [] = inl doc ->
        epub.parseDisplayOptions f
        = traced (made (list_to_map (reverse (optionPairs doc))))
            [ReadXML appleDisplayOptions []; ReadXML koboDisplayOptions []])
  /\ (forall err1 err2,
        answer f appleDisplayOptions [] = inr err1 ->
        answer f koboDisplayOptions [] = inr err2 ->
        epub.parseDisplayOptions f
        = traced (made ∅)
            [ReadXML appleDisplayOptions []; ReadXML koboDisplayOptions []])
  /\ (forall doc,
        let m : gmap string string := list_to_map (reverse (optionPairs doc)) in
        (forall k v, m !! k = Some v -> (k, v) ∈ optionPairs doc /\ k <> "" /\ v <> "")
        /\ (forall k v, (k, v) ∈ optionPairs doc -> is_Some (m !! k))
        /\ (NoDup (optionPairs doc).*1 ->
            forall k v, m !! k = Some v <-> (k, v) ∈ optionPairs doc))
  /\ (forall err doc platform option,
        answer f appleDisplayOptions [] = inr err ->
        answer f koboDisplayOptions [] = inl doc ->
        xmlquery.SelectElement doc "//platform" = Some platform ->
        xmlquery.SelectElements platform "option" = [option] ->
        xmlquery.SelectAttr option "name" = "fixed-layout" ->
        xmlquery.InnerText option = "true" ->
        value (epub.parseDisplayOptions f) = made {[ "fixed-layout" := "true" ]}).
Proof.
  split; [|split; [|split; [|split]]].
  - intros doc Ha. by rewrite parseDisplayOptions_cases, Ha, platformOptions_pairs.
  - intros err doc Ha Hk.
    by rewrite parseDisplayOptions_cases, Ha, Hk, platformOptions_pairs.
  - intros err1 err2 Ha Hk. by rewrite parseDisplayOptions_cases, Ha, Hk.
  - intros doc m. split; [|split].
    + intros k v Hkv. apply elem_of_list_to_map_2 in Hkv.
      rewrite elem_of_reverse in Hkv.
      split; [done|]. by apply (optionPairs_nonempty doc).
    + intros k v Hin.
      apply not_eq_None_Some. unfold m. rewrite <- not_elem_of_list_to_map.
      intros Hnot. apply Hnot. apply list_elem_of_fmap. exists (k, v).
      split; [done|]. by apply elem_of_reverse.
    + intros Hnd k v. unfold m. rewrite <- elem_of_list_to_map.
      * by rewrite elem_of_reverse.
      * by rewrite fmap_reverse, reverse_Permutation.
  - intros err doc platform option Ha Hk Hp Ho Hname Htext.
    rewrite parseDisplayOptions_cases, Ha, Hk. cbn.
    unfold epub.platformOptions. rewrite Hp, Ho. cbn.
    unfold epub.addOption. by rewrite Hname, Htext.
Qed.
End epub_claims.

(* ===================================================================== *)
(** ** The theorems at sample inputs                                      *)
(* ===================================================================== *)

Section samples.
#[local] Existing Instance Sample.mediaTypes.
#[local] Existing Instance Sample.xmlQuery.
#[local] Existing Instance Sample.imageEnv.

Lemma sample_sort_perm (l : manifest.LinkList) :
  Sample.insertionSort ImageParser.hrefLess l ≡ₚ l.
Proof. apply insertionSort_perm. Qed.

Lemma sample_sort_sorted (l : manifest.LinkList) :
  sortedBy ImageParser.hrefLess (Sample.insertionSort ImageParser.hrefLess l).
Proof.
  apply insertionSort_sorted. intros x y. apply string_ltb_asym.
Qed.

(** The order is byte-wise, not numeric: page10 comes before page2. *)
Example page10_before_page2 :
  manifest.Href <$>
    sortSlice ImageParser.hrefLess
      [Sample.file "page2.png" "image/png"; Sample.file "page10.png" "image/png";
       Sample.file "page1.png" "image/png"]
  = ["page1.png"; "page10.png"; "page2.png"].
Proof. reflexivity. Qed.

Lemma C3_reading_order_sorted_witness :
  exists b,
    ImageParser.Parse Sample.zipAsset Sample.comic = (Some b, None)
    /\ manifest.ReadingOrder (pub.BuilderManifest b)
       = [manifest.set_Rels ["cover"] Sample.a_png; Sample.b_jpg; Sample.c_png].
Proof.
  destruct (C3_reading_order_sorted Sample.zipAsset Sample.comic
              [Sample.b_jpg; Sample.a_png; Sample.c_png])
    as (b & first & rest & HP & _ & _ & _ & Hex).
  - exact sample_sort_perm.
  - exact sample_sort_sorted.
  - reflexivity.
  - reflexivity.
  - vm_compute. discriminate.
  - exists b. split; [exact HP|].
    apply (Hex Sample.a_png Sample.b_jpg Sample.c_png).
    + apply Permutation_swap.
    + repeat constructor.
    + reflexivity.
    + reflexivity.
    + reflexivity.
Defined.

Lemma C7_accepts_witness :
  ImageParser.accepts Sample.zipAsset
    (Sample.archive [Sample.a_png; Sample.x_exe] []) = (false, None).
Proof.
  destruct (C7_accepts Sample.zipAsset (Sample.archive [Sample.a_png; Sample.x_exe] []))
    as (_ & _ & Hother).
  destruct (Hother [Sample.a_png; Sample.x_exe]) as (_ & _ & Hexe);
    [reflexivity..|].
  apply (Hexe Sample.a_png Sample.x_exe); reflexivity.
Defined.

Lemma C8_no_bitmap_is_an_error_witness :
  ImageParser.accepts Sample.zipAsset (Sample.archive [Sample.metadata_xml] [])
  = (true, None)
  /\ ImageParser.Parse Sample.zipAsset (Sample.archive [Sample.metadata_xml] [])
     = (None, Some (fetcher.New "no bitmap found in the publication")).
Proof.
  destruct (C8_no_bitmap_is_an_error Sample.zipAsset
              (Sample.archive [Sample.metadata_xml] []) [Sample.metadata_xml])
    as (_ & _ & Hmeta); [reflexivity..|].
  apply (Hmeta Sample.metadata_xml); reflexivity.
Defined.

Lemma C10_cover_frame_witness :
  exists b first rest,
    ImageParser.Parse Sample.zipAsset Sample.comic = (Some b, None)
    /\ sortSlice ImageParser.hrefLess
         (List.filter kept [Sample.b_jpg; Sample.a_png; Sample.c_png])
       = first :: rest
    /\ manifest.ReadingOrder (pub.BuilderManifest b)
       = {| manifest.Href := manifest.Href first;
            manifest.MediaType := manifest.MediaType first;
            manifest.Title := manifest.Title first;
            manifest.Rels := ["cover"];
            manifest.Properties := manifest.Properties first |} :: rest.
Proof.
  apply (C10_cover_frame Sample.zipAsset Sample.comic
           [Sample.b_jpg; Sample.a_png; Sample.c_png]).
  - exact sample_sort_perm.
  - reflexivity.
  - reflexivity.
  - vm_compute. discriminate.
Defined.

Lemma C1_strategy_exclusive_witness :
  (Forall (modernCall (H := Sample.env3))
     (trace (epub.parseNavigationData (env := Sample.env3) Sample.epub3 Sample.book))
   /\ Forall (fun e => ~ legacyCall (H := Sample.env3) e)
        (trace (epub.parseNavigationData (env := Sample.env3) Sample.epub3 Sample.book)))
  /\ (Forall (legacyCall (H := Sample.env2))
        (trace (epub.parseNavigationData (env := Sample.env2) Sample.epub2 Sample.book))
      /\ Forall (fun e => ~ modernCall (H := Sample.env2) e)
           (trace (epub.parseNavigationData (env := Sample.env2) Sample.epub2
                     Sample.book))).
Proof.
  split.
  - apply (proj1 (C1_strategy_exclusive (H1 := Sample.env3) Sample.epub3 Sample.book)).
    reflexivity.
  - apply (proj2 (C1_strategy_exclusive (H1 := Sample.env2) Sample.epub2 Sample.book)).
    reflexivity.
Defined.

Lemma C2_legacy_resource_witness :
  epub.parseNavigationData (env := Sample.env2) Sample.danglingToc Sample.book
  = traced (made ∅) []
  /\ exists calls,
       trace (epub.parseNavigationData (env := Sample.env2) Sample.epub2 Sample.book)
       = ReadXML "toc.ncx" (ncxPrefixes (H := Sample.env2)) :: calls.
Proof.
  split.
  - destruct (C2_legacy_resource (H1 := Sample.env2) Sample.danglingToc Sample.book)
      as (_ & _ & Hnone & _); [reflexivity|].
    apply Hnone. reflexivity.
  - destruct (C2_legacy_resource (H1 := Sample.env2) Sample.epub2 Sample.book)
      as (_ & _ & _ & Hsome); [reflexivity|].
    apply (Hsome {| epub.Href := "toc.ncx"; epub.ID := "ncx";
                    epub.MediaType := "application/x-dtbncx+xml";
                    epub.Properties := [] |}).
    reflexivity.
Defined.

Lemma C4_soft_degradation_witness :
  exists b,
    value (epub.Parse (env := Sample.env3)
             (epub.NewParser (env := Sample.env3) None) Sample.epubAsset
             (Sample.archive [] [("OEBPS/content.opf", Sample.opf)]))
    = (Some b, None).
Proof.
  destruct (C4_soft_degradation (H1 := Sample.env3)
              (epub.NewParser (env := Sample.env3) None) Sample.epubAsset
              (Sample.archive [] [("OEBPS/content.opf", Sample.opf)]))
    as (_ & _ & _ & Hparse).
  apply (Hparse "OEBPS/content.opf" Sample.opf Sample.epub3); reflexivity.
Defined.

Lemma C5_deobfuscation_iff_identifier_witness :
  exists b,
    value (epub.Parse (env := Sample.env3)
             (epub.NewParser (env := Sample.env3) None) Sample.epubAsset Sample.book)
    = (Some b, None)
    /\ pub.BuilderFetcher b
       = fetcher.NewTransformingFetcher Sample.book
           (epub.Transform (EpubEnv := Sample.env3)
              (epub.NewDeobfuscator "urn:uuid:0d5a1c6e")).
Proof.
  destruct (C5_deobfuscation_iff_identifier (H1 := Sample.env3)
              (epub.NewParser (env := Sample.env3) None) Sample.epubAsset Sample.book
              "OEBPS/content.opf" Sample.opf Sample.epub3)
    as (b & HP & _ & Hid & _); [reflexivity..|].
  exists b. split; [exact HP|].
  assert (manifest.Identifier (manifest.MetadataOf (pub.BuilderManifest b))
          = "urn:uuid:0d5a1c6e") as Hb.
  { injection HP as <-. reflexivity. }
  rewrite Hb in Hid. apply Hid. discriminate.
Defined.

Lemma C6_package_document_errors_witness :
  epub.Parse (env := Sample.env3) (epub.NewParser (env := Sample.env3) None)
    Sample.epubAsset Sample.badBook
  = traced (None, Some (fetcher.Wrap (fetcher.Foreign "no package element")
                          "invalid OPF file"))
      [CallGetRootFilePath;
       ReadXML "OEBPS/content.opf" (opfPrefixes (H := Sample.env3));
       CallParsePackageDocument "OEBPS/content.opf"].
Proof.
  destruct (C6_package_document_errors (H1 := Sample.env3)
              (epub.NewParser (env := Sample.env3) None) Sample.epubAsset
              Sample.badBook "OEBPS/content.opf")
    as (_ & Hparse); [reflexivity..|].
  apply (Hparse (xmlquery.Element "html" [] [])); reflexivity.
Defined.

Lemma C9_display_options_witness :
  value (epub.parseDisplayOptions Sample.koboOnly)
  = made {[ "fixed-layout" := "true" ]}.
Proof.
  destruct (C9_display_options Sample.koboOnly) as (_ & _ & _ & _ & Hkobo).
  eapply (Hkobo _ Sample.displayOptionsXml); reflexivity.
Defined.

(** C2, as stated, fails. The spine of this EPUB 2 package names the table
    of contents [ncx], an id no manifest entry has, and the manifest has an
    NCX index [toc]: the rule of the claim selects [toc], the parser selects
    nothing and returns an empty map without reading [toc.ncx]. *)
Lemma C2_counterexample :
  SFltb (epub.EPUBVersion Sample.danglingToc) float64_3 = true
  /\ spec_legacy_resource Sample.danglingToc
     = Some {| epub.Href := "toc.ncx"; epub.ID := "toc";
               epub.MediaType := "application/x-dtbncx+xml";
               epub.Properties := [] |}
  /\ epub.ncxItem Sample.danglingToc = None
  /\ epub.parseNavigationData (env := Sample.env2) Sample.danglingToc Sample.book
     = traced (made ∅) [].
Proof. repeat split. Qed.

(** C6, as stated, fails. The archive has no package document: the read
    fails, and [Parse] returns the resource error of the fetcher as it is,
    not an error wrapped with a message. And where [Parse] does wrap, for a
    package document that does not parse, the message is "invalid OPF
    file". *)
Lemma C6_counterexample :
  value (epub.Parse (env := Sample.env3) (epub.NewParser (env := Sample.env3) None)
           Sample.epubAsset (Sample.archive [] []))
  = (None, Some (fetcher.OfResource
                   {| fetcher.Code := 404; fetcher.Message := "not found" |}))
  /\ (forall cause message,
        value (epub.Parse (env := Sample.env3)
                 (epub.NewParser (env := Sample.env3) None)
                 Sample.epubAsset (Sample.archive [] []))
        <> (None, Some (fetcher.Wrap cause message)))
  /\ value (epub.Parse (env := Sample.env3) (epub.NewParser (env := Sample.env3) None)
              Sample.epubAsset Sample.badBook)
     <> (None, Some (fetcher.Wrap (fetcher.Foreign "no package element")
                       "invalid package descriptor")).
Proof. repeat split; discriminate. Qed.
End samples.

(* ===================================================================== *)
(** ** More on the EPUB parser                                            *)
(* ===================================================================== *)

(** Simplify [Parse] and leave its three helpers folded. *)
Ltac parse_step :=
  cbn -[epub.parseNavigationData epub.parseEncryptionData epub.parseDisplayOptions].

Section epub_more.
Context `{!mediatype.Ops, !xmlquery.Query, !epub.EpubEnv}.

Lemma trace_bind {A B} (m : Traced A) (k : A -> Traced B) :
  trace (m ≫= k) = trace m ++ trace (k (value m)).
Proof. reflexivity. Qed.

Lemma value_bind {A B} (m : Traced A) (k : A -> Traced B) :
  value (m ≫= k) = value (k (value m)).
Proof. reflexivity. Qed.

(** The calls of a [Parse] that gets to build, in order. *)
Lemma Parse_trace_built p asset f opfPath doc packageDocument :
  mediatype.Equal (asset.MediaType asset) mediatype.EPUB = true ->
  epub.GetRootFilePath f = (opfPath, None) ->
  answer f opfPath opfPrefixes = inl doc ->
  epub.ParsePackageDocument doc opfPath = inl packageDocument ->
  trace (epub.Parse p asset f)
  = [CallGetRootFilePath; ReadXML opfPath opfPrefixes;
     CallParsePackageDocument opfPath]
    ++ trace (epub.parseNavigationData packageDocument f)
    ++ trace (epub.parseEncryptionData f)
    ++ trace (epub.parseDisplayOptions f)
    ++ [CallCreate].
Proof.
  intros Hmt Hroot Hread Hparse. unfold epub.Parse. rewrite Hmt. parse_step.
  rewrite Hroot. parse_step.
  unfold answer, opfPrefixes in Hread. unfold manifest.NewHREF.
  rewrite Hread. parse_step. rewrite Hparse. parse_step.
  by rewrite !trace_bind.
Qed.

(** The outcomes of [Parse] that are errors, with their calls. *)
Lemma Parse_root_error p asset f opfPath err :
  mediatype.Equal (asset.MediaType asset) mediatype.EPUB = true ->
  epub.GetRootFilePath f = (opfPath, Some err) ->
  epub.Parse p asset f = traced (None, Some err) [CallGetRootFilePath].
Proof.
  intros Hmt Hroot. unfold epub.Parse. rewrite Hmt. parse_step. by rewrite Hroot.
Qed.

Lemma Parse_read_error p asset f opfPath errx :
  mediatype.Equal (asset.MediaType asset) mediatype.EPUB = true ->
  epub.GetRootFilePath f = (opfPath, None) ->
  answer f opfPath opfPrefixes = inr errx ->
  epub.Parse p asset f
  = traced (None, Some (fetcher.OfResource errx))
      [CallGetRootFilePath; ReadXML opfPath opfPrefixes].
Proof.
  intros Hmt Hroot Hread. unfold epub.Parse. rewrite Hmt. parse_step.
  rewrite Hroot. parse_step.
  unfold answer, opfPrefixes in Hread. unfold manifest.NewHREF. by rewrite Hread.
Qed.

Lemma Parse_document_error p asset f opfPath doc err :
  mediatype.Equal (asset.MediaType asset) mediatype.EPUB = true ->
  epub.GetRootFilePath f = (opfPath, None) ->
  answer f opfPath opfPrefixes = inl doc ->
  epub.ParsePackageDocument doc opfPath = inr err ->
  epub.Parse p asset f
  = traced (None, Some (fetcher.Wrap err "invalid OPF file"))
      [CallGetRootFilePath; ReadXML opfPath opfPrefixes;
       CallParsePackageDocument opfPath].
Proof.
  intros Hmt Hroot Hread Hparse. unfold epub.Parse. rewrite Hmt. parse_step.
  rewrite Hroot. parse_step.
  unfold answer, opfPrefixes in Hread. unfold manifest.NewHREF.
  rewrite Hread. parse_step. by rewrite Hparse.
Qed.

Lemma Parse_not_epub p asset f :
  mediatype.Equal (asset.MediaType asset) mediatype.EPUB = false ->
  epub.Parse p asset f = traced (None, None) [].
Proof. intros Hmt. unfold epub.Parse. by rewrite Hmt. Qed.

(** The cases of [Parse], for a proof by cases. *)
Lemma Parse_outcomes p asset f :
  (mediatype.Equal (asset.MediaType asset) mediatype.EPUB = false
   /\ epub.Parse p asset f = traced (None, None) [])
  \/ (exists opfPath err,
        mediatype.Equal (asset.MediaType asset) mediatype.EPUB = true
        /\ epub.GetRootFilePath f = (opfPath, Some err)
        /\ epub.Parse p asset f = traced (None, Some err) [CallGetRootFilePath])
  \/ (exists opfPath errx,
        mediatype.Equal (asset.MediaType asset) mediatype.EPUB = true
        /\ epub.GetRootFilePath f = (opfPath, None)
        /\ answer f opfPath opfPrefixes = inr errx
        /\ epub.Parse p asset f
           = traced (None, Some (fetcher.OfResource errx))
               [CallGetRootFilePath; ReadXML opfPath opfPrefixes])
  \/ (exists opfPath doc err,
        mediatype.Equal (asset.MediaType asset) mediatype.EPUB = true
        /\ epub.GetRootFilePath f = (opfPath, None)
        /\ answer f opfPath opfPrefixes = inl doc
        /\ epub.ParsePackageDocument doc opfPath = inr err
        /\ epub.Parse p asset f
           = traced (None, Some (fetcher.Wrap err "invalid OPF file"))
               [CallGetRootFilePath; ReadXML opfPath opfPrefixes;
                CallParsePackageDocument opfPath])
  \/ (exists opfPath doc packageDocument b,
        mediatype.Equal (asset.MediaType asset) mediatype.EPUB = true
        /\ epub.GetRootFilePath f = (opfPath, None)
        /\ answer f opfPath opfPrefixes = inl doc
        /\ epub.ParsePackageDocument doc opfPath = inl packageDocument
        /\ value (epub.Parse p asset f) = (Some b, None)
        /\ trace (epub.Parse p asset f)
           = [CallGetRootFilePath; ReadXML opfPath opfPrefixes;
              CallParsePackageDocument opfPath]
             ++ trace (epub.parseNavigationData packageDocument f)
             ++ trace (epub.parseEncryptionData f)
             ++ trace (epub.parseDisplayOptions f)
             ++ [CallCreate]).
Proof.
  destruct (mediatype.Equal (asset.MediaType asset) mediatype.EPUB) eqn:Hmt.
  2: { left. split; [done|]. by apply Parse_not_epub. }
  right.
  destruct (epub.GetRootFilePath f) as [opfPath [err|]] eqn:Hroot.
  { left. exists opfPath, err. repeat split.
    by apply (Parse_root_error p asset f opfPath). }
  right.
  destruct (answer f opfPath opfPrefixes) as [doc|errx] eqn:Hread.
  2: { left. exists opfPath, errx. repeat split; try done.
       by apply (Parse_read_error p asset f opfPath). }
  right.
  destruct (epub.ParsePackageDocument doc opfPath) as [pd|err] eqn:Hparse.
  2: { left. exists opfPath, doc, err. repeat split; try done.
       by apply (Parse_document_error p asset f opfPath doc). }
  right. destruct (Parse_builds p asset f opfPath doc pd) as (b & Hb & _); try done.
  exists opfPath, doc, pd, b. repeat split; try done.
  by apply (Parse_trace_built p asset f opfPath doc).
Qed.
End epub_more.

Section epub_extras.
Context `{!mediatype.Ops, !xmlquery.Query, !epub.EpubEnv}.

(** X1. [Parse] signals no-match, a nil builder with a nil error, exactly
    when the media type of the asset is not that of an EPUB, and it is
    exactly then that it makes no call at all. *)
Theorem X1_epub_no_match_iff p asset f :
  (value (epub.Parse p asset f) = (None, None)
   <-> mediatype.Equal (asset.MediaType asset) mediatype.EPUB = false)
  /\ (trace (epub.Parse p asset f) = []
      <-> mediatype.Equal (asset.MediaType asset) mediatype.EPUB = false).
Proof.
  destruct (Parse_outcomes p asset f)
    as [[Hmt ->]
       |[(opfPath & err & Hmt & _ & ->)
        |[(opfPath & errx & Hmt & _ & _ & ->)
         |[(opfPath & doc & err & Hmt & _ & _ & _ & ->)
          |(opfPath & doc & pd & b & Hmt & _ & _ & _ & -> & ->)]]]];
    rewrite Hmt; cbn; split; split; congruence.
Qed.

(** X2. For an EPUB asset, [Parse] returns a builder exactly when the
    package document is located, read and parsed; a builder never comes
    with an error; and an error of the root-file discovery is returned as
    it is, after that one call only. *)
Theorem X2_epub_builds_iff p asset f :
  mediatype.Equal (asset.MediaType asset) mediatype.EPUB = true ->
  ((exists b, fst (value (epub.Parse p asset f)) = Some b)
   <-> exists opfPath doc packageDocument,
         epub.GetRootFilePath f = (opfPath, None)
         /\ answer f opfPath opfPrefixes = inl doc
         /\ epub.ParsePackageDocument doc opfPath = inl packageDocument)
  /\ (forall b, fst (value (epub.Parse p asset f)) = Some b ->
        snd (value (epub.Parse p asset f)) = None)
  /\ (forall opfPath err,
        epub.GetRootFilePath f = (opfPath, Some err) ->
        epub.Parse p asset f = traced (None, Some err) [CallGetRootFilePath]).
Proof.
  intros Hepub. split; [|split].
  - split.
    + intros [b Hb].
      destruct (Parse_outcomes p asset f)
        as [[Hmt HP]
           |[(opfPath & err & Hmt & _ & HP)
            |[(opfPath & errx & Hmt & _ & _ & HP)
             |[(opfPath & doc & err & Hmt & _ & _ & _ & HP)
              |(opfPath & doc & pd & b' & Hmt & Hroot & Hread & Hparse & _)]]]];
        try (rewrite HP in Hb; discriminate).
      by exists opfPath, doc, pd.
    + intros (opfPath & doc & pd & Hroot & Hread & Hparse).
      destruct (Parse_builds p asset f opfPath doc pd) as (b & Hb & _); try done.
      exists b. by rewrite Hb.
  - intros b Hb.
    destruct (Parse_outcomes p asset f)
      as [[Hmt HP]
         |[(opfPath & err & Hmt & _ & HP)
          |[(opfPath & errx & Hmt & _ & _ & HP)
           |[(opfPath & doc & err & Hmt & _ & _ & _ & HP)
            |(opfPath & doc & pd & b' & Hmt & _ & _ & _ & HP & _)]]]];
      rewrite HP in Hb |- *; try discriminate; done.
  - intros opfPath err Hroot. by apply (Parse_root_error p asset f opfPath).
Qed.

(** X3. A [Parse] that builds makes its calls in this order: the root-file
    discovery, the read of the package document, its parse, then the calls
    of [parseNavigationData], of [parseEncryptionData] and of
    [parseDisplayOptions], and last the publication factory; and the
    manifest of the builder is what the factory makes of the asset name as
    fallback title, the package document and the three results. *)
Theorem X3_epub_call_order p asset f opfPath doc packageDocument :
  mediatype.Equal (asset.MediaType asset) mediatype.EPUB = true ->
  epub.GetRootFilePath f = (opfPath, None) ->
  answer f opfPath opfPrefixes = inl doc ->
  epub.ParsePackageDocument doc opfPath = inl packageDocument ->
  trace (epub.Parse p asset f)
  = [CallGetRootFilePath; ReadXML opfPath opfPrefixes;
     CallParsePackageDocument opfPath]
    ++ trace (epub.parseNavigationData packageDocument f)
    ++ trace (epub.parseEncryptionData f)
    ++ trace (epub.parseDisplayOptions f)
    ++ [CallCreate]
  /\ exists b,
       value (epub.Parse p asset f) = (Some b, None)
       /\ pub.BuilderManifest b
          = epub.Create
              {| epub.FallbackTitle := asset.Name asset;
                 epub.PackageDocumentOf := packageDocument;
                 epub.NavigationData :=
                   value (epub.parseNavigationData packageDocument f);
                 epub.EncryptionData := value (epub.parseEncryptionData f);
                 epub.DisplayOptions := value (epub.parseDisplayOptions f) |}.
Proof.
  intros Hmt Hroot Hread Hparse. split.
  - by apply (Parse_trace_built p asset f opfPath doc).
  - destruct (Parse_builds p asset f opfPath doc packageDocument)
      as (b & Hb & Hm & _); try done.
    by exists b.
Qed.



(** X5. The positions service that [Parse] registers is built with the
    strategy of the parser: the one given to [NewParser], and the
    recommended one when [NewParser] is given nil. *)
Theorem X5_positions_strategy strategy asset f opfPath doc packageDocument :
  mediatype.Equal (asset.MediaType asset) mediatype.EPUB = true ->
  epub.GetRootFilePath f = (opfPath, None) ->
  answer f opfPath opfPrefixes = inl doc ->
  epub.ParsePackageDocument doc opfPath = inl packageDocument ->
  exists b,
    value (epub.Parse (epub.NewParser strategy) asset f) = (Some b, None)
    /\ pub.BuilderServices b !! pub.PositionsService_Name
       = Some (pub.PositionsServiceFactory
                 (default epub.RecommendedReflowableStrategy strategy)).
Proof.
  intros Hmt Hroot Hread Hparse. unfold epub.Parse. rewrite Hmt. parse_step.
  rewrite Hroot. parse_step.
  unfold answer, opfPrefixes in Hread. unfold manifest.NewHREF.
  rewrite Hread. parse_step. rewrite Hparse. parse_step.
  rewrite !value_bind. parse_step.
  eexists. split; [reflexivity|]. cbn.
  unfold pub.NewServicesBuilder. cbn. rewrite lookup_insert_eq.
  by destruct strategy.
Qed.

Lemma hasNav_elem_of properties :
  epub.hasNav properties = true <-> (epub.VocabularyItem ++ "nav")%string ∈ properties.
Proof.
  induction properties as [|st rest IH]; cbn.
  - by rewrite elem_of_nil.
  - rewrite elem_of_cons.
    destruct (String.eqb_spec st (epub.VocabularyItem ++ "nav")%string) as [->|Hne].
    + split; auto.
    + rewrite IH. split; [auto|]. intros [Heq|]; [congruence|done].
Qed.

Lemma hasNav_not_elem_of properties :
  epub.hasNav properties = false <-> (epub.VocabularyItem ++ "nav")%string ∉ properties.
Proof.
  rewrite <- hasNav_elem_of. destruct (epub.hasNav properties); split; congruence.
Qed.

(** X6. With a version that is not below 3.0 (3.0 or more, or not a
    number), the navigation resource is the first manifest entry one of
    whose properties is the vocabulary prefix followed by "nav"; when no
    entry has it the result is an empty map and nothing is read; when one
    has it, its document is what is read. *)
Theorem X6_navigation_document_resource packageDocument f :
  SFltb (epub.EPUBVersion packageDocument) float64_3 = false ->
  let nav := (epub.VocabularyItem ++ "nav")%string in
  let items := epub.Manifest packageDocument in
  (forall item,
     epub.navItem packageDocument = Some item <->
     exists before after,
       items = before ++ item :: after
       /\ nav ∈ epub.Properties item
       /\ Forall (fun v => nav ∉ epub.Properties v) before)
  /\ (epub.navItem packageDocument = None <->
      Forall (fun v => nav ∉ epub.Properties v) items)
  /\ (epub.navItem packageDocument = None ->
      epub.parseNavigationData packageDocument f = traced (made ∅) [])
  /\ (forall item, epub.navItem packageDocument = Some item ->
        exists calls,
          trace (epub.parseNavigationData packageDocument f)
          = ReadXML (pathOf packageDocument item) navPrefixes :: calls).
Proof.
  intros Hv nav items. split; [|split; [|split]].
  - intros item. unfold epub.navItem. rewrite firstItem_Some. unfold firstWith.
    fold items. split; intros (before & after & Heq & Hi & Hb);
      exists before, after; (split; [done|]); split.
    + by apply hasNav_elem_of.
    + eapply Forall_impl; [exact Hb|]. intros v. apply hasNav_not_elem_of.
    + by apply hasNav_elem_of.
    + eapply Forall_impl; [exact Hb|]. intros v. apply hasNav_not_elem_of.
  - unfold epub.navItem. rewrite firstItem_None. fold items.
    split; intros Hall; (eapply Forall_impl; [exact Hall|]);
      intros v; apply hasNav_not_elem_of.
  - intros Hnone. by rewrite (parseNavigationData_modern _ f Hv), Hnone.
  - intros item Hsome. rewrite (parseNavigationData_modern _ f Hv), Hsome. cbn.
    destruct (answer f _ _); cbn; eauto.
Qed.

(** X7. When the document of the navigation resource is read, the result
    of [parseNavigationData] is what the parser of that document gives for
    it and for its resolved path, as it is: [ParseNCX] below version 3.0,
    [ParseNavDoc] otherwise; the parser is called once, after the read. *)
Theorem X7_navigation_delegation packageDocument f item n :
  (SFltb (epub.EPUBVersion packageDocument) float64_3 = true ->
   epub.ncxItem packageDocument = Some item ->
   answer f (pathOf packageDocument item) ncxPrefixes = inl n ->
   epub.parseNavigationData packageDocument f
   = traced (epub.ParseNCX n (pathOf packageDocument item))
       [ReadXML (pathOf packageDocument item) ncxPrefixes;
        CallParseNCX (pathOf packageDocument item)])
  /\ (SFltb (epub.EPUBVersion packageDocument) float64_3 = false ->
      epub.navItem packageDocument = Some item ->
      answer f (pathOf packageDocument item) navPrefixes = inl n ->
      epub.parseNavigationData packageDocument f
      = traced (epub.ParseNavDoc n (pathOf packageDocument item))
          [ReadXML (pathOf packageDocument item) navPrefixes;
           CallParseNavDoc (pathOf packageDocument item)]).
Proof.
  split; intros Hv Hitem Hread.
  - rewrite (parseNavigationData_legacy _ f Hv), Hitem. cbn. by rewrite Hread.
  - rewrite (parseNavigationData_modern _ f Hv), Hitem. cbn. by rewrite Hread.
Qed.

Lemma navItem_same (a b : list epub.Item) :
  Forall2 (fun v w => epub.Href v = epub.Href w
                      /\ epub.Properties v = epub.Properties w) a b ->
  epub.Href <$> epub.firstItem (fun v => epub.hasNav (epub.Properties v)) a
  = epub.Href <$> epub.firstItem (fun v => epub.hasNav (epub.Properties v)) b.
Proof.
  induction 1 as [|v w a b [Hh Hp] _ IH]; cbn; [done|].
  rewrite Hp. destruct (epub.hasNav (epub.Properties w)); [|done].
  cbn. by rewrite Hh.
Qed.

(** X8. With a version that is not below 3.0, [parseNavigationData] looks
    at nothing of the package document but its path and the hrefs and
    properties of the manifest entries: two package documents that agree
    on these give the same result and the same calls, whatever their
    spines and the ids and media types of their entries. *)
Theorem X8_navigation_ignores_legacy_data a b f :
  sameForNavDoc a b ->
  SFltb (epub.EPUBVersion a) float64_3 = false ->
  epub.parseNavigationData a f = epub.parseNavigationData b f.
Proof.
  intros (Hpath & Hver & Hitems) Hv.
  rewrite (parseNavigationData_modern a f Hv).
  rewrite Hver in Hv. rewrite (parseNavigationData_modern b f Hv).
  pose proof (navItem_same _ _ Hitems) as Hsame. unfold epub.navItem.
  destruct (epub.firstItem _ (epub.Manifest a)) as [v|],
           (epub.firstItem _ (epub.Manifest b)) as [w|]; try done.
  injection Hsame as Hh. unfold pathOf. cbn. by rewrite Hpath, Hh.
Qed.
End epub_extras.

Section epub_extras_options.
Context `{!mediatype.Ops, !xmlquery.Query, !epub.EpubEnv}.

(** X9. [parseEncryptionData] reads META-INF/encryption.xml once, with its
    three prefixes, and nothing else; when the read succeeds the result is
    what [ParseEncryption] gives for the document, as it is, and when it
    fails [ParseEncryption] is not called. *)
Theorem X9_encryption_delegation f :
  (exists calls,
     trace (epub.parseEncryptionData f)
     = ReadXML "META-INF/encryption.xml" encPrefixes :: calls
     /\ (calls = [] \/ calls = [CallParseEncryption]))
  /\ (forall n,
        answer f "META-INF/encryption.xml" encPrefixes = inl n ->
        epub.parseEncryptionData f
        = traced (epub.ParseEncryption n)
            [ReadXML "META-INF/encryption.xml" encPrefixes; CallParseEncryption])
  /\ (forall err,
        answer f "META-INF/encryption.xml" encPrefixes = inr err ->
        trace (epub.parseEncryptionData f)
        = [ReadXML "META-INF/encryption.xml" encPrefixes]).
Proof.
  rewrite parseEncryptionData_cases.
  destruct (answer f "META-INF/encryption.xml" encPrefixes) as [n|err]; cbn.
  - split; [eauto|]. split; [by intros ? [= ->] | done].
  - split; [eauto|]. split; done.
Qed.

(** An option after which the name is not written again. *)
Lemma addOption_keeps options (ret : gmap string string) k :
  Forall (fun o => xmlquery.SelectAttr o "name" <> k \/ xmlquery.InnerText o = "")
    options ->
  fold_left epub.addOption options ret !! k = ret !! k.
Proof.
  intros Hall. revert ret.
  induction Hall as [|o options Ho _ IH]; intros ret; cbn; [done|].
  rewrite IH. unfold epub.addOption.
  destruct (String.eqb_spec (xmlquery.SelectAttr o "name") "") as [|Hn]; [done|].
  destruct (String.eqb_spec (xmlquery.InnerText o) "") as [|Hv]; [done|]. cbn.
  destruct Ho as [Hne|]; [|done]. by rewrite lookup_insert_ne.
Qed.

Lemma parseDisplayOptions_of f doc :
  displayOptionsOf f doc ->
  value (epub.parseDisplayOptions f) = made (epub.platformOptions doc ∅).
Proof.
  rewrite parseDisplayOptions_cases.
  intros [Ha | [[err Ha] Hk]]; rewrite Ha; [done|]. by rewrite Hk.
Qed.

(** X10. When several options of the platform element have the same name,
    the value of the last one that has a value stays: an option with a name
    and a value, after which no option with a value has the same name, is
    what the result holds for that name. *)
Theorem X10_display_options_last_wins f doc platform before option after :
  displayOptionsOf f doc ->
  xmlquery.SelectElement doc "//platform" = Some platform ->
  xmlquery.SelectElements platform "option" = before ++ option :: after ->
  xmlquery.SelectAttr option "name" <> "" ->
  xmlquery.InnerText option <> "" ->
  Forall (fun o => xmlquery.SelectAttr o "name" <> xmlquery.SelectAttr option "name"
                   \/ xmlquery.InnerText o = "") after ->
  gomap_get (value (epub.parseDisplayOptions f)) (xmlquery.SelectAttr option "name")
  = Some (xmlquery.InnerText option).
Proof.
  intros Hdoc Hp Ho Hn Hv Hafter.
  rewrite (parseDisplayOptions_of f doc Hdoc). cbn.
  unfold epub.platformOptions. rewrite Hp, Ho.
  rewrite fold_left_app. cbn. rewrite (addOption_keeps _ _ _ Hafter).
  unfold epub.addOption at 1.
  apply String.eqb_neq in Hn, Hv. rewrite Hn, Hv. cbn.
  by rewrite lookup_insert_eq.
Qed.

(** X11. Once the Apple document is read, the Kobo document plays no part:
    two fetchers that answer the Apple read with the same document give the
    same result and the same single read, whatever else they hold; and an
    Apple document without a platform element gives an empty map. *)
Theorem X11_apple_shadows_kobo f f' doc :
  answer f appleDisplayOptions [] = inl doc ->
  (answer f' appleDisplayOptions [] = inl doc ->
   epub.parseDisplayOptions f = epub.parseDisplayOptions f')
  /\ trace (epub.parseDisplayOptions f) = [ReadXML appleDisplayOptions []]
  /\ (xmlquery.SelectElement doc "//platform" = None ->
      value (epub.parseDisplayOptions f) = made ∅).
Proof.
  intros Ha. rewrite !parseDisplayOptions_cases, Ha. split; [|split].
  - by intros ->.
  - done.
  - intros Hnone. cbn. unfold epub.platformOptions. by rewrite Hnone.
Qed.

(** X12. The result of [parseDisplayOptions] is never the nil map, and no
    name and no value in it is empty, whatever the fetcher answers. *)
Theorem X12_display_options_made f :
  exists m,
    value (epub.parseDisplayOptions f) = made m
    /\ forall k v, m !! k = Some v -> k <> "" /\ v <> "".
Proof.
  assert (forall doc k v,
            epub.platformOptions doc ∅ !! k = Some v -> k <> "" /\ v <> "") as Hdoc.
  { intros doc k v. rewrite platformOptions_pairs. intros Hkv.
    apply elem_of_list_to_map_2 in Hkv. rewrite elem_of_reverse in Hkv.
    by apply (optionPairs_nonempty doc). }
  rewrite parseDisplayOptions_cases.
  destruct (answer f appleDisplayOptions []) as [doc|]; cbn.
  { eexists. split; [done|]. apply Hdoc. }
  destruct (answer f koboDisplayOptions []) as [doc|]; cbn.
  { eexists. split; [done|]. apply Hdoc. }
  exists ∅. split; [done|]. intros k v. by rewrite lookup_empty.
Qed.
End epub_extras_options.

(* ===================================================================== *)
(** ** [filepath.Ext] and the extension that [accepts] looks up           *)
(* ===================================================================== *)

Lemma list_ascii_of_string_app (a b : string) :
  list_ascii_of_string (a ++ b)%string
  = list_ascii_of_string a ++ list_ascii_of_string b.
Proof. induction a as [|c a IH]; simpl; [done|]. by rewrite IH. Qed.

Lemma string_of_list_ascii_app (a b : list ascii) :
  string_of_list_ascii (a ++ b)
  = (string_of_list_ascii a ++ string_of_list_ascii b)%string.
Proof. induction a as [|c a IH]; simpl; [done|]. by rewrite IH. Qed.

Lemma substring_all (s : string) : String.substring 0 (String.length s) s = s.
Proof. induction s as [|c s IH]; simpl; [done|]. by rewrite IH. Qed.

Lemma slice_from1_cons c (s : string) : slice_from1 (String c s) = s.
Proof.
  unfold slice_from1. cbn. rewrite Nat.sub_0_r. apply substring_all.
Qed.

Lemma ext_scan_found seg rest after :
  Forall (fun c => c <> "."%char /\ c <> "/"%char) seg ->
  filepath.ext_scan (seg ++ "."%char :: rest) after = "."%char :: rev seg ++ after.
Proof.
  intros Hseg. revert after.
  induction Hseg as [|c seg [Hdot Hsep] _ IH]; intros after; cbn; [done|].
  apply Ascii.eqb_neq in Hdot, Hsep. rewrite Hdot, Hsep, IH.
  by rewrite <- app_assoc.
Qed.

Lemma ext_scan_inv before after :
  filepath.ext_scan before after <> [] ->
  exists seg rest,
    before = seg ++ "."%char :: rest
    /\ Forall (fun c => c <> "."%char /\ c <> "/"%char) seg
    /\ filepath.ext_scan before after = "."%char :: rev seg ++ after.
Proof.
  revert after. induction before as [|c before IH]; intros after; cbn; [done|].
  destruct (Ascii.eqb_spec c "/") as [->|Hsep]; [done|].
  destruct (Ascii.eqb_spec c ".") as [->|Hdot].
  { intros _. by exists [], before. }
  intros Hne. destruct (IH (c :: after) Hne) as (seg & rest & -> & Hseg & ->).
  exists (c :: seg), rest. split; [done|]. split; [by constructor|].
  cbn. by rewrite <- app_assoc.
Qed.

Lemma ext_scan_no_dot before after :
  Forall (fun c => c <> "."%char) before -> filepath.ext_scan before after = [].
Proof.
  intros Hall. revert after.
  induction Hall as [|c before Hdot _ IH]; intros after; cbn; [done|].
  destruct (Ascii.eqb c "/"); [done|].
  apply Ascii.eqb_neq in Hdot. by rewrite Hdot.
Qed.

(** [filepath.Ext] of a path that ends in a dot and an extension proper. *)
Lemma Ext_suffix stem e :
  Forall (fun c => c <> "."%char /\ c <> "/"%char) (list_ascii_of_string e) ->
  filepath.Ext (stem ++ "." ++ e) = ("." ++ e)%string.
Proof.
  intros He. unfold filepath.Ext.
  rewrite !list_ascii_of_string_app, !rev_app_distr. cbn.
  rewrite <- app_assoc. cbn.
  rewrite ext_scan_found.
  - rewrite rev_involutive, app_nil_r. cbn.
    by rewrite string_of_list_ascii_of_string.
  - by apply Forall_rev.
Qed.

(** What [filepath.Ext] returns is empty or a last part of the path that
    starts at its last dot and holds no separator. *)
Lemma Ext_inv path :
  filepath.Ext path = ""
  \/ exists stem e,
       path = (stem ++ "." ++ e)%string
       /\ Forall (fun c => c <> "."%char /\ c <> "/"%char) (list_ascii_of_string e)
       /\ filepath.Ext path = ("." ++ e)%string.
Proof.
  unfold filepath.Ext.
  destruct (filepath.ext_scan (rev (list_ascii_of_string path)) []) as [|c r] eqn:Hscan.
  { by left. }
  right.
  destruct (ext_scan_inv (rev (list_ascii_of_string path)) [])
    as (seg & rest & Hrev & Hseg & Hext); [by rewrite Hscan|].
  rewrite Hscan in Hext. rewrite Hext, app_nil_r.
  exists (string_of_list_ascii (rev rest)), (string_of_list_ascii (rev seg)).
  split; [|split].
  - rewrite <- (string_of_list_ascii_of_string path).
    rewrite <- (rev_involutive (list_ascii_of_string path)), Hrev.
    rewrite rev_app_distr. cbn. rewrite <- app_assoc. cbn.
    by rewrite string_of_list_ascii_app.
  - rewrite list_ascii_of_string_of_list_ascii. by apply Forall_rev.
  - done.
Qed.

Section extension.
Context `{!mediatype.Ops, !ImageEnv}.

(** X18. The extension that [accepts] looks up is an extension proper [e]
    exactly when the lowered path ends in a dot followed by [e]: the part
    after the last dot of the last element of the path, in lower case. *)
Theorem X18_extension_is_suffix path e :
  plainExtension e ->
  ImageParser.fext_of path = e
  <-> exists stem, ToLower path = (stem ++ "." ++ e)%string.
Proof.
  intros [Hne He]. unfold ImageParser.fext_of. split.
  - destruct (Ext_inv (ToLower path)) as [->|(stem & e' & Hpath & He' & ->)].
    { cbn. congruence. }
    destruct e' as [|c e'].
    { cbn. intros <-. inversion He as [|? ? [Hdot _]]; congruence. }
    change ("." ++ String c e')%string with (String "." (String c e')).
    change (1 <? String.length (String "." (String c e')))%nat with true.
    cbv iota. rewrite slice_from1_cons. intros <-. by exists stem.
  - intros [stem ->]. rewrite Ext_suffix; [|done].
    destruct e as [|c e]; [done|].
    change ("." ++ String c e)%string with (String "." (String c e)).
    change (1 <? String.length (String "." (String c e)))%nat with true.
    cbv iota. by rewrite slice_from1_cons.
Qed.
End extension.

(* ===================================================================== *)
(** ** More on the image parser                                           *)
(* ===================================================================== *)

Lemma filter_perm {A} (p : A -> bool) (l l' : list A) :
  l ≡ₚ l' -> List.filter p l ≡ₚ List.filter p l'.
Proof.
  induction 1 as [|x l l' _ IH|x y l|l l' l'' _ IH1 _ IH2]; cbn.
  - done.
  - destruct (p x); [by constructor | done].
  - destruct (p x), (p y); try done. apply Permutation_swap.
  - by rewrite IH1.
Qed.

Section image_extras.
Context `{!mediatype.Ops, !ImageEnv}.

(** The results [accepts] can have. *)
Lemma accepts_results asset f :
  ImageParser.accepts asset f = (true, None)
  \/ ImageParser.accepts asset f = (false, None)
  \/ exists links err,
       fetcher.Links f = (links, Some err)
       /\ ImageParser.accepts asset f = (false, Some err).
Proof.
  unfold ImageParser.accepts. destruct (_ || _); [by left|].
  destruct (fetcher.Links f) as [links [err|]].
  - right. right. by exists links, err.
  - destruct (accepts_loop_cases links) as [[_ ->]|[_ ->]]; auto.
Qed.

(** X13. An error of [Links()] always comes out of [Parse] as that error,
    with no builder: through [accepts] for an asset that is neither CBZ nor
    CBR, and through the listing of [Parse] itself for a CBZ or CBR asset,
    which [accepts] admits without listing. *)
Theorem X13_links_error_surfaces asset f links err :
  fetcher.Links f = (links, Some err) ->
  ImageParser.Parse asset f = (None, Some err)
  /\ ((mediatype.Equal (asset.MediaType asset) mediatype.CBZ = true
       \/ mediatype.Equal (asset.MediaType asset) mediatype.CBR = true) ->
      ImageParser.accepts asset f = (true, None))
  /\ (mediatype.Equal (asset.MediaType asset) mediatype.CBZ = false ->
      mediatype.Equal (asset.MediaType asset) mediatype.CBR = false ->
      ImageParser.accepts asset f = (false, Some err)).
Proof.
  intros Hlinks. unfold ImageParser.Parse, ImageParser.accepts. rewrite Hlinks.
  destruct (mediatype.Equal (asset.MediaType asset) mediatype.CBZ),
           (mediatype.Equal (asset.MediaType asset) mediatype.CBR);
    cbn; rewrite ?Hlinks; repeat split; intros; try done; intuition discriminate.
Qed.

(** X14. [Parse] signals no-match, a nil builder with a nil error, exactly
    when [accepts] rejects without an error; it returns a builder only for
    an accepted input, and never a builder together with an error. *)
Theorem X14_image_no_match_iff asset f :
  (ImageParser.Parse asset f = (None, None)
   <-> ImageParser.accepts asset f = (false, None))
  /\ (forall b, fst (ImageParser.Parse asset f) = Some b ->
        ImageParser.accepts asset f = (true, None)
        /\ snd (ImageParser.Parse asset f) = None).
Proof.
  unfold ImageParser.Parse.
  destruct (accepts_results asset f) as [->|[->|(links & err & _ & ->)]]; cbn.
  - destruct (fetcher.Links f) as [links [err|]]; [by split; [split|]|].
    destruct (length (ImageParser.collect links) =? 0)%nat; cbn;
      (split; [split; discriminate|]); intros b; try discriminate; done.
  - split; [done|]. discriminate.
  - split; [split; discriminate|]. discriminate.
Qed.

Lemma accepts_loop_perm links links' :
  links ≡ₚ links' ->
  ImageParser.accepts_loop links = ImageParser.accepts_loop links'.
Proof.
  intros Hp.
  destruct (accepts_loop_cases links) as [[Ha ->]|[Ha ->]],
           (accepts_loop_cases links') as [[Hb ->]|[Hb ->]]; try done.
  - exfalso. apply Hb. by rewrite <- Hp.
  - exfalso. apply Ha. by rewrite Hp.
Qed.

(** X15. Acceptance does not depend on the order in which the fetcher
    lists the links: two fetchers that list the same links in different
    orders are accepted or rejected alike. *)
Theorem X15_accepts_order_free asset f f' links links' :
  fetcher.Links f = (links, None) ->
  fetcher.Links f' = (links', None) ->
  links ≡ₚ links' ->
  ImageParser.accepts asset f = ImageParser.accepts asset f'.
Proof.
  intros Hl Hl' Hp. unfold ImageParser.accepts. rewrite Hl, Hl'.
  destruct (_ || _); [done|]. by apply accepts_loop_perm.
Qed.

(** X16. When the kept links have hrefs that differ from one another, the
    reading order does not depend on the order of the listing either: two
    accepted fetchers that list the same links give the same reading
    order (for every [sort.Slice] that permutes its slice and leaves it
    ordered by [less]). *)
Theorem X16_reading_order_canonical asset asset' f f' links links' :
  (forall l, sortSlice ImageParser.hrefLess l ≡ₚ l) ->
  (forall l, sortedBy ImageParser.hrefLess (sortSlice ImageParser.hrefLess l)) ->
  ImageParser.accepts asset f = (true, None) ->
  ImageParser.accepts asset' f' = (true, None) ->
  fetcher.Links f = (links, None) ->
  fetcher.Links f' = (links', None) ->
  links ≡ₚ links' ->
  List.filter kept links <> [] ->
  NoDup (manifest.Href <$> List.filter kept links) ->
  exists b b',
    ImageParser.Parse asset f = (Some b, None)
    /\ ImageParser.Parse asset' f' = (Some b', None)
    /\ manifest.ReadingOrder (pub.BuilderManifest b)
       = manifest.ReadingOrder (pub.BuilderManifest b').
Proof.
  intros Hperm Hsorted Hacc Hacc' Hl Hl' Hp Hne Hnd.
  pose proof (filter_perm kept _ _ Hp) as Hfp.
  assert (List.filter kept links' <> []) as Hne'.
  { intros He. rewrite He in Hfp. by apply Permutation_nil_r in Hfp. }
  destruct (Parse_accepted asset f links Hacc Hl Hne) as (b & HP & _ & HRO).
  destruct (Parse_accepted asset' f' links' Hacc' Hl' Hne') as (b' & HP' & _ & HRO').
  exists b, b'. split; [done|]. split; [done|]. rewrite HRO, HRO'. f_equal.
  assert (sortSlice ImageParser.hrefLess (List.filter kept links)
          ≡ₚ sortSlice ImageParser.hrefLess (List.filter kept links')) as Hss.
  { by rewrite !Hperm. }
  apply (perm_same_keys manifest.Href); [done| |].
  - by rewrite Hperm, <- Hfp.
  - apply (StronglySorted_unique string_le).
    + apply sorted_hrefs, Hsorted.
    + apply sorted_hrefs, Hsorted.
    + by rewrite Hss.
Qed.

Lemma tagCover_elem (readingOrder : manifest.LinkList) link :
  link ∈ ImageParser.tagCover readingOrder ->
  exists link0,
    link0 ∈ readingOrder
    /\ manifest.Href link = manifest.Href link0
    /\ manifest.MediaType link = manifest.MediaType link0.
Proof.
  destruct readingOrder as [|x r]; cbn; [by rewrite elem_of_nil|].
  rewrite elem_of_cons. intros [->|Hin].
  - exists x. split; [by left | done].
  - exists link. split; [by right | done].
Qed.

(** X17. The reading order holds bitmaps only: every link of it has the
    href and the media type of a listed link that is not hidden and is a
    bitmap, and it has as many links as there are such links in the
    listing (for every [sort.Slice] that permutes its slice). *)
Theorem X17_reading_order_bitmaps_only asset f links :
  (forall l, sortSlice ImageParser.hrefLess l ≡ₚ l) ->
  ImageParser.accepts asset f = (true, None) ->
  fetcher.Links f = (links, None) ->
  List.filter kept links <> [] ->
  exists b,
    ImageParser.Parse asset f = (Some b, None)
    /\ length (manifest.ReadingOrder (pub.BuilderManifest b))
       = length (List.filter kept links)
    /\ forall link,
         link ∈ manifest.ReadingOrder (pub.BuilderManifest b) ->
         mediatype.IsBitmap (manifest.MediaType link) = true
         /\ exists link0,
              link0 ∈ links
              /\ IsHiddenOrThumbs (LinkPath link0) = false
              /\ manifest.Href link = manifest.Href link0
              /\ manifest.MediaType link = manifest.MediaType link0.
Proof.
  intros Hperm Hacc Hlinks Hne.
  destruct (Parse_accepted asset f links Hacc Hlinks Hne) as (b & HP & _ & HRO).
  exists b. split; [done|]. rewrite HRO. split.
  - rewrite <- (Permutation_length (Hperm (List.filter kept links))).
    by destruct (sortSlice ImageParser.hrefLess (List.filter kept links)).
  - intros link (link0 & Hin & Hh & Hm)%tagCover_elem.
    rewrite Hperm in Hin.
    apply list_elem_of_In, filter_In in Hin as [Hin Hk].
    unfold kept in Hk. apply andb_prop in Hk as [Hhid Hbmp].
    apply negb_true_iff in Hhid. rewrite Hm. split; [done|].
    exists link0. by rewrite list_elem_of_In.
Qed.

(** X19. A listed file that is not hidden, is not a bitmap and whose
    lowered path holds no dot, or ends in a dot, has no extension of the
    allow-list: an asset that is neither CBZ nor CBR is then rejected, a
    no-match without an error. *)
Theorem X19_no_extension_rejected asset f links link :
  mediatype.Equal (asset.MediaType asset) mediatype.CBZ = false ->
  mediatype.Equal (asset.MediaType asset) mediatype.CBR = false ->
  fetcher.Links f = (links, None) ->
  link ∈ links ->
  IsHiddenOrThumbs (LinkPath link) = false ->
  mediatype.IsBitmap (manifest.MediaType link) = false ->
  (Forall (fun c => c <> "."%char) (list_ascii_of_string (ToLower (LinkPath link)))
   \/ exists stem, ToLower (LinkPath link) = (stem ++ ".")%string) ->
  ImageParser.accepts asset f = (false, None).
Proof.
  intros Hz Hr Hlinks Hin Hh Hb Hpath.
  unfold ImageParser.accepts. rewrite Hz, Hr, Hlinks. cbn.
  destruct (accepts_loop_cases links) as [[Hall _]|[_ ->]]; [|done].
  exfalso. rewrite Forall_forall in Hall.
  pose proof (Hall link Hin Hh Hb) as Hext. revert Hext.
  assert (ImageParser.fext_of (LinkPath link) = ""
          \/ ImageParser.fext_of (LinkPath link) = ".") as [-> | ->].
  { unfold ImageParser.fext_of. destruct Hpath as [Hnodot|[stem ->]].
    - left. unfold filepath.Ext. rewrite ext_scan_no_dot; [done|].
      by apply Forall_rev.
    - right. change (stem ++ ".")%string with (stem ++ "." ++ "")%string.
      rewrite Ext_suffix; [done | constructor]. }
  all: unfold ImageParser.allowed_extensions_image;
    rewrite !elem_of_union, !elem_of_singleton; intros [[[|]|]|]; done.
Qed.

(** X20. The title of an image publication is the one guessed from the
    file structure, and the name of the asset when nothing is guessed; the
    manifest has the Divina profile, the webpub context and no identifier,
    and the builder gets the fetcher as it was given. *)
Theorem X20_image_manifest asset f links :
  ImageParser.accepts asset f = (true, None) ->
  fetcher.Links f = (links, None) ->
  List.filter kept links <> [] ->
  exists b,
    ImageParser.Parse asset f = (Some b, None)
    /\ pub.BuilderFetcher b = f
    /\ manifest.LocalizedTitle (manifest.MetadataOf (pub.BuilderManifest b))
       = NewLocalizedStringFromString
           (if String.eqb (guessPublicationTitleFromFileStructure f) ""
            then asset.Name asset
            else guessPublicationTitleFromFileStructure f)
    /\ manifest.ConformsTo (manifest.MetadataOf (pub.BuilderManifest b))
       = [ProfileDivina]
    /\ manifest.Context (pub.BuilderManifest b) = [WebpubManifestContext]
    /\ manifest.Identifier (manifest.MetadataOf (pub.BuilderManifest b)) = "".
Proof.
  intros Hacc Hlinks Hne. unfold ImageParser.Parse.
  rewrite Hacc, Hlinks. cbn. rewrite collect_filter.
  destruct (List.filter kept links) as [|x l] eqn:Hf; [done|]. cbn.
  eexists. split; [reflexivity|]. by repeat split.
Qed.

(** X21. For a CBZ or CBR asset the allow-list plays no part: [Parse]
    builds as soon as the listing holds one bitmap that is not hidden,
    whatever other files the archive holds, and fails with the error
    "no bitmap found in the publication" when it holds none. *)
Theorem X21_comic_archive_bypass asset f links :
  (mediatype.Equal (asset.MediaType asset) mediatype.CBZ = true
   \/ mediatype.Equal (asset.MediaType asset) mediatype.CBR = true) ->
  fetcher.Links f = (links, None) ->
  (List.filter kept links <> [] ->
   exists b, ImageParser.Parse asset f = (Some b, None))
  /\ (List.filter kept links = [] ->
      ImageParser.Parse asset f
      = (None, Some (fetcher.New "no bitmap found in the publication"))).
Proof.
  intros Hmt Hlinks.
  assert (ImageParser.accepts asset f = (true, None)) as Hacc.
  { unfold ImageParser.accepts. destruct Hmt as [-> | ->]; [done|].
    by rewrite orb_true_r. }
  split.
  - intros Hne.
    destruct (Parse_accepted asset f links Hacc Hlinks Hne) as (b & HP & _).
    by exists b.
  - intros He. by apply (Parse_no_bitmap asset f links).
Qed.
End image_extras.

(* ===================================================================== *)
(** ** The further theorems at sample inputs                              *)
(* ===================================================================== *)

Section more_samples.
#[local] Existing Instance Sample.mediaTypes.
#[local] Existing Instance Sample.xmlQuery.
#[local] Existing Instance Sample.imageEnv.

Lemma X2_epub_builds_iff_witness :
  (exists b,
     fst (value (epub.Parse (env := Sample.env3)
                   (epub.NewParser (env := Sample.env3) None)
                   Sample.epubAsset Sample.book)) = Some b)
  /\ epub.Parse (env := Sample.envNoRoot)
       (epub.NewParser (env := Sample.envNoRoot) None) Sample.epubAsset Sample.book
     = traced (None, Some (fetcher.Foreign "no container.xml")) [CallGetRootFilePath].
Proof.
  split.
  - destruct (X2_epub_builds_iff (H1 := Sample.env3)
                (epub.NewParser (env := Sample.env3) None)
                Sample.epubAsset Sample.book) as (Hiff & _ & _); [reflexivity|].
    apply Hiff.
    exists "OEBPS/content.opf", Sample.opf, Sample.epub3.
    split; [reflexivity|]. split; reflexivity.
  - destruct (X2_epub_builds_iff (H1 := Sample.envNoRoot)
                (epub.NewParser (env := Sample.envNoRoot) None)
                Sample.epubAsset Sample.book) as (_ & _ & Hroot); [reflexivity|].
    apply (Hroot ""). reflexivity.
Defined.

Lemma X3_epub_call_order_witness :
  trace (epub.Parse (env := Sample.env3) (epub.NewParser (env := Sample.env3) None)
           Sample.epubAsset Sample.book)
  = [CallGetRootFilePath;
     ReadXML "OEBPS/content.opf" (opfPrefixes (H := Sample.env3));
     CallParsePackageDocument "OEBPS/content.opf";
     ReadXML "nav.xhtml" (navPrefixes (H := Sample.env3));
     CallParseNavDoc "nav.xhtml";
     ReadXML "META-INF/encryption.xml" (encPrefixes (H := Sample.env3));
     ReadXML appleDisplayOptions [];
     ReadXML koboDisplayOptions [];
     CallCreate].
Proof.
  destruct (X3_epub_call_order (H1 := Sample.env3)
              (epub.NewParser (env := Sample.env3) None) Sample.epubAsset Sample.book
              "OEBPS/content.opf" Sample.opf Sample.epub3)
    as [Htrace _]; [reflexivity..|].
  rewrite Htrace. reflexivity.
Defined.

Lemma X5_positions_strategy_witness :
  exists b,
    value (epub.Parse (env := Sample.env3) (epub.NewParser (env := Sample.env3) None)
             Sample.epubAsset Sample.book) = (Some b, None)
    /\ pub.BuilderServices b !! pub.PositionsService_Name
       = Some (pub.PositionsServiceFactory "recommended").
Proof.
  apply (X5_positions_strategy (H1 := Sample.env3) None Sample.epubAsset Sample.book
           "OEBPS/content.opf" Sample.opf Sample.epub3); reflexivity.
Defined.

Lemma X6_navigation_document_resource_witness :
  exists calls,
    trace (epub.parseNavigationData (env := Sample.env3) Sample.epubNaN Sample.book)
    = ReadXML "nav.xhtml" (navPrefixes (H := Sample.env3)) :: calls.
Proof.
  destruct (X6_navigation_document_resource (H1 := Sample.env3)
              Sample.epubNaN Sample.book)
    as (_ & _ & _ & Hsome); [reflexivity|].
  apply (Hsome {| epub.Href := "nav.xhtml"; epub.ID := "nav";
                  epub.MediaType := "application/xhtml+xml";
                  epub.Properties :=
                    ["http://idpf.org/epub/vocab/package/item/#nav"] |}).
  reflexivity.
Defined.

Lemma X7_navigation_delegation_witness :
  epub.parseNavigationData (env := Sample.env2) Sample.epub2 Sample.book
  = traced (made {[ "toc" := [manifest.LinkOfHref "toc.ncx"] ]})
      [ReadXML "toc.ncx" (ncxPrefixes (H := Sample.env2)); CallParseNCX "toc.ncx"].
Proof.
  apply (proj1 (X7_navigation_delegation (H1 := Sample.env2) Sample.epub2 Sample.book
                  {| epub.Href := "toc.ncx"; epub.ID := "ncx";
                     epub.MediaType := "application/x-dtbncx+xml";
                     epub.Properties := [] |}
                  (xmlquery.Element "ncx" [] []))); reflexivity.
Defined.

Lemma X8_navigation_ignores_legacy_data_witness :
  epub.parseNavigationData (env := Sample.env3) Sample.epub3 Sample.book
  = epub.parseNavigationData (env := Sample.env3) Sample.epub3renamed Sample.book.
Proof.
  apply (X8_navigation_ignores_legacy_data (H1 := Sample.env3)).
  - split; [reflexivity|]. split; [reflexivity|]. repeat constructor.
  - reflexivity.
Defined.

Lemma X9_encryption_delegation_witness :
  trace (epub.parseEncryptionData (env := Sample.env3) Sample.book)
  = [ReadXML "META-INF/encryption.xml" (encPrefixes (H := Sample.env3))].
Proof.
  destruct (X9_encryption_delegation (H1 := Sample.env3) Sample.book)
    as (_ & _ & Hfail).
  apply (Hfail {| fetcher.Code := 404; fetcher.Message := "not found" |}).
  reflexivity.
Defined.

Lemma X10_display_options_last_wins_witness :
  gomap_get (value (epub.parseDisplayOptions Sample.appleOnly)) "fixed-layout"
  = Some "false".
Proof.
  change (gomap_get (value (epub.parseDisplayOptions Sample.appleOnly))
            (xmlquery.SelectAttr
               (xmlquery.Element "option" [("name", "fixed-layout")]
                  [xmlquery.Text "false"]) "name")
          = Some (xmlquery.InnerText
                    (xmlquery.Element "option" [("name", "fixed-layout")]
                       [xmlquery.Text "false"]))).
  apply (X10_display_options_last_wins Sample.appleOnly Sample.repeatedOptionsXml
           (xmlquery.Element "platform" [("name", "*")]
              [xmlquery.Element "option" [("name", "fixed-layout")] [xmlquery.Text "true"];
               xmlquery.Element "option" [("name", "open-to-spread")] [];
               xmlquery.Element "option" [] [xmlquery.Text "orphan"];
               xmlquery.Element "option" [("name", "fixed-layout")]
                 [xmlquery.Text "false"]])
           [xmlquery.Element "option" [("name", "fixed-layout")] [xmlquery.Text "true"];
            xmlquery.Element "option" [("name", "open-to-spread")] [];
            xmlquery.Element "option" [] [xmlquery.Text "orphan"]]
           (xmlquery.Element "option" [("name", "fixed-layout")] [xmlquery.Text "false"])
           []).
  - left. reflexivity.
  - reflexivity.
  - reflexivity.
  - discriminate.
  - discriminate.
  - constructor.
Defined.

Lemma X11_apple_shadows_kobo_witness :
  epub.parseDisplayOptions Sample.appleAndKobo
  = epub.parseDisplayOptions Sample.appleOnly.
Proof.
  destruct (X11_apple_shadows_kobo Sample.appleAndKobo Sample.appleOnly
              Sample.repeatedOptionsXml) as (Hsame & _ & _); [reflexivity|].
  apply Hsame. reflexivity.
Defined.

Lemma X13_links_error_surfaces_witness :
  ImageParser.Parse Sample.cbzAsset Sample.unlistable
  = (None, Some (fetcher.Foreign "cannot list the archive"))
  /\ ImageParser.Parse Sample.zipAsset Sample.unlistable
     = (None, Some (fetcher.Foreign "cannot list the archive")).
Proof.
  split.
  - destruct (X13_links_error_surfaces Sample.cbzAsset Sample.unlistable []
                (fetcher.Foreign "cannot list the archive")) as (HP & _ & _);
      [reflexivity|]. exact HP.
  - destruct (X13_links_error_surfaces Sample.zipAsset Sample.unlistable []
                (fetcher.Foreign "cannot list the archive")) as (HP & _ & _);
      [reflexivity|]. exact HP.
Defined.

Lemma X15_accepts_order_free_witness :
  ImageParser.accepts Sample.zipAsset
    (Sample.archive [Sample.a_png; Sample.x_exe; Sample.metadata_xml] [])
  = ImageParser.accepts Sample.zipAsset
      (Sample.archive [Sample.metadata_xml; Sample.a_png; Sample.x_exe] []).
Proof.
  apply (X15_accepts_order_free Sample.zipAsset _ _
           [Sample.a_png; Sample.x_exe; Sample.metadata_xml]
           [Sample.metadata_xml; Sample.a_png; Sample.x_exe]).
  - reflexivity.
  - reflexivity.
  - symmetry.
    apply (Permutation_cons_append [Sample.a_png; Sample.x_exe] Sample.metadata_xml).
Defined.

Lemma X16_reading_order_canonical_witness :
  exists b b',
    ImageParser.Parse Sample.zipAsset Sample.comic = (Some b, None)
    /\ ImageParser.Parse Sample.cbzAsset
         (Sample.archive [Sample.a_png; Sample.b_jpg; Sample.c_png] [])
       = (Some b', None)
    /\ manifest.ReadingOrder (pub.BuilderManifest b)
       = manifest.ReadingOrder (pub.BuilderManifest b').
Proof.
  apply (X16_reading_order_canonical Sample.zipAsset Sample.cbzAsset Sample.comic
           (Sample.archive [Sample.a_png; Sample.b_jpg; Sample.c_png] [])
           [Sample.b_jpg; Sample.a_png; Sample.c_png]
           [Sample.a_png; Sample.b_jpg; Sample.c_png]).
  - exact sample_sort_perm.
  - exact sample_sort_sorted.
  - reflexivity.
  - reflexivity.
  - reflexivity.
  - reflexivity.
  - apply Permutation_swap.
  - vm_compute. discriminate.
  - vm_compute.
    repeat (apply NoDup_cons_2; [rewrite ?elem_of_cons, ?elem_of_nil|]);
      try apply NoDup_nil_2; intuition discriminate.
Defined.

Lemma X17_reading_order_bitmaps_only_witness :
  exists b,
    ImageParser.Parse Sample.zipAsset
      (Sample.archive [Sample.b_jpg; Sample.metadata_xml; Sample.a_png] [])
    = (Some b, None)
    /\ length (manifest.ReadingOrder (pub.BuilderManifest b)) = 2%nat.
Proof.
  destruct (X17_reading_order_bitmaps_only Sample.zipAsset
              (Sample.archive [Sample.b_jpg; Sample.metadata_xml; Sample.a_png] [])
              [Sample.b_jpg; Sample.metadata_xml; Sample.a_png])
    as (b & HP & Hlen & _).
  - exact sample_sort_perm.
  - reflexivity.
  - reflexivity.
  - vm_compute. discriminate.
  - exists b. split; [exact HP | exact Hlen].
Defined.

Lemma X18_extension_is_suffix_witness :
  ImageParser.fext_of "Pages/INFO.Xml" = "xml".
Proof.
  apply (X18_extension_is_suffix "Pages/INFO.Xml" "xml").
  - split; [discriminate|]. cbn.
    repeat (apply Forall_cons; split; [split; discriminate|]). constructor.
  - exists "pages/info". reflexivity.
Defined.

Lemma X19_no_extension_rejected_witness :
  ImageParser.accepts Sample.zipAsset
    (Sample.archive [Sample.a_png; Sample.file "README" "text/plain"] [])
  = (false, None).
Proof.
  apply (X19_no_extension_rejected Sample.zipAsset _
           [Sample.a_png; Sample.file "README" "text/plain"]
           (Sample.file "README" "text/plain")).
  - reflexivity.
  - reflexivity.
  - reflexivity.
  - apply elem_of_cons. right. apply elem_of_cons. left. reflexivity.
  - reflexivity.
  - reflexivity.
  - left. cbn.
    repeat (apply Forall_cons; split; [discriminate|]). constructor.
Defined.

Lemma X20_image_manifest_witness :
  exists b,
    ImageParser.Parse Sample.zipAsset Sample.comic = (Some b, None)
    /\ pub.BuilderFetcher b = Sample.comic
    /\ manifest.LocalizedTitle (manifest.MetadataOf (pub.BuilderManifest b))
       = "comic.zip".
Proof.
  destruct (X20_image_manifest Sample.zipAsset Sample.comic
              [Sample.b_jpg; Sample.a_png; Sample.c_png])
    as (b & HP & Hf & Ht & _).
  - reflexivity.
  - reflexivity.
  - vm_compute. discriminate.
  - exists b. split; [exact HP|]. split; [exact Hf | exact Ht].
Defined.

Lemma X21_comic_archive_bypass_witness :
  exists b,
    ImageParser.Parse Sample.cbzAsset
      (Sample.archive [Sample.x_exe; Sample.a_png] []) = (Some b, None).
Proof.
  destruct (X21_comic_archive_bypass Sample.cbzAsset
              (Sample.archive [Sample.x_exe; Sample.a_png] [])
              [Sample.x_exe; Sample.a_png]) as (Hbuild & _).
  - left. reflexivity.
  - reflexivity.
  - apply Hbuild. vm_compute. discriminate.
Defined.
End more_samples.
